(** * BentoML repository client: a shallow embedding

    This development embeds the client side of the BentoML bundle registry
    ([bentoml/yatai/client/bento_repository_api.py]) and the key/value
    parser of the command line ([bentoml/cli/utils.py]) and proves
    properties of them.

    Python strings are modelled as [string]: a character of the model is
    a code point below 256, so the strings of the model are the Python
    strings over Latin-1.  Python [int]s are modelled as [Z], dictionaries
    as [gmap] where only their content matters and as lists of entries
    where their order does, [None]-able arguments as [option].  Exceptions are values of [exn] carried by [outcome].  Calls
    that leave the process (RPCs to the Yatai service, file system, HTTP,
    terminal, logger) are handlers over an abstract world [W]; every such
    call is recorded, with its arguments and its answer, in the trace of
    the computation. *)

From stdpp Require Import base strings gmap list pretty.
From Stdlib Require Import Ascii ZArith Lia.

Local Open Scope Z_scope.

(** ** Exceptions and outcomes *)

(** [BentoMLException] is the domain error of the package; [ValueError] is
    what Python raises when a sequence is unpacked into the wrong number of
    names; [LibraryError] stands for whatever a library call raised
    ([OSError], [requests.ConnectionError], [tarfile.TarError], ...). *)
Inductive exn :=
| BentoMLException (msg : string)
| ValueError (msg : string)
| LibraryError (descr : string).

Inductive outcome (A : Type) :=
| Return (a : A)
| Raise (e : exn).
Arguments Return {A} a.
Arguments Raise {A} e.

Definition is_Return {A} (o : outcome A) : bool :=
  match o with Return _ => true | Raise _ => false end.

(** ** Python string primitives *)

Module PyStr.

(** [s.split(sep)] for a one-character separator: cut at every
    occurrence, keeping empty pieces. *)
Fixpoint split (sep : ascii) (s : string) : list string :=
  match s with
  | EmptyString => [EmptyString]
  | String c s' =>
      if Ascii.eqb c sep then EmptyString :: split sep s'
      else match split sep s' with
           | hd :: tl => String c hd :: tl
           | [] => [String c EmptyString]
           end
  end.

(** [sep in s] *)
Fixpoint contains (sep : ascii) (s : string) : bool :=
  match s with
  | EmptyString => false
  | String c s' => Ascii.eqb c sep || contains sep s'
  end.

(** [s.count(sep)] *)
Fixpoint count (sep : ascii) (s : string) : nat :=
  match s with
  | EmptyString => O
  | String c s' => ((if Ascii.eqb c sep then 1 else 0) + count sep s')%nat
  end.

(** Whitespace as [str.isspace] and [str.strip] see it, on the code
    points below 256: TAB, LF, VT, FF, CR, the separators FS, GS, RS, US,
    the blank, NEL (U+0085) and the no-break space (U+00A0). *)
Definition isspace (c : ascii) : bool :=
  let n := N_of_ascii c in
  ((9 <=? n) && (n <=? 13) || (28 <=? n) && (n <=? 32)
   || (n =? 133) || (n =? 160))%N.

Fixpoint lstrip (s : string) : string :=
  match s with
  | EmptyString => EmptyString
  | String c s' => if isspace c then lstrip s' else s
  end.

Fixpoint rstrip (s : string) : string :=
  match s with
  | EmptyString => EmptyString
  | String c s' =>
      match rstrip s' with
      | EmptyString => if isspace c then EmptyString else String c EmptyString
      | r => String c r
      end
  end.

(** [s.strip()] *)
Definition strip (s : string) : string := rstrip (lstrip s).

(** [sub] occurs in [s] as a contiguous piece. *)
Definition includes (sub s : string) : Prop :=
  ∃ l r, s = l +:+ sub +:+ r.

(** The piece before the first separator, and the piece after it. *)
Fixpoint before (sep : ascii) (s : string) : string :=
  match s with
  | EmptyString => EmptyString
  | String c s' => if Ascii.eqb c sep then EmptyString
                   else String c (before sep s')
  end.

Fixpoint after (sep : ascii) (s : string) : string :=
  match s with
  | EmptyString => EmptyString
  | String c s' => if Ascii.eqb c sep then s' else after sep s'
  end.

End PyStr.

(** Two-name unpacking [a, b = xs]. *)
Definition unpack2 {A} (xs : list A) : outcome (A * A) :=
  match xs with
  | [a; b] => Return (a, b)
  | _ :: _ :: _ :: _ =>
      Raise (ValueError "too many values to unpack (expected 2)")
  | _ =>
      Raise (ValueError
        ("not enough values to unpack (expected 2, got "
           +:+ pretty (length xs) +:+ ")"))
  end.

(** ** Messages of the Yatai protocol *)

(** Modelled from the spec: the status codes of [status_pb2.Status] (the
    generated protobuf module is not part of the sources): [OK],
    [NOT_FOUND] and an open set of other failure codes, each known by its
    enum name. *)
Inductive StatusCode :=
| OK
| NOT_FOUND
| OTHER_CODE (name : string).

Global Instance StatusCode_eq_dec : EqDecision StatusCode.
Proof. solve_decision. Defined.

(** [Status.Name(code)], also the first component of
    [status_pb_to_error_code_and_message]. *)
Definition Status_Name (c : StatusCode) : string :=
  match c with
  | OK => "OK"
  | NOT_FOUND => "NOT_FOUND"
  | OTHER_CODE n => n
  end.

Record Status := mkStatus {
  status_code : StatusCode;
  error_message : string
}.

(** [BentoUri.type]: the three storage kinds the client dispatches on and
    any other value of the enum. *)
Inductive StorageType :=
| LOCAL
| S3
| GCS
| OTHER_STORAGE (tag : Z).

Global Instance StorageType_eq_dec : EqDecision StorageType.
Proof. solve_decision. Defined.

Record BentoUri := mkBentoUri {
  uri_type : StorageType;
  uri_uri : string;
  s3_presigned_url : string;
  gcs_presigned_url : string
}.

Record BentoServiceMetadata := mkMetadata {
  md_name : string;
  md_version : string;
  md_labels : gmap string string
}.

Record Bento := mkBento {
  bento_name : string;
  bento_version : string;
  bento_uri : BentoUri;
  bento_service_metadata : BentoServiceMetadata
}.

(** [UploadStatus.Status]; [UNINITIALIZED] is the value a fresh entry has
    before the client writes anything (the spec's Pending). *)
Inductive UploadStatusCode :=
| UNINITIALIZED
| UPLOADING
| DONE
| ERROR.

Global Instance UploadStatusCode_eq_dec : EqDecision UploadStatusCode.
Proof. solve_decision. Defined.

(** The [updated_at] timestamp of the message is wall-clock time and is
    left out. *)
Record UploadStatus := mkUploadStatus {
  us_status : UploadStatusCode;
  us_percentage : option Z
}.

Record GetBentoRequest := mkGetBentoRequest {
  get_bento_name : string;
  get_bento_version : string
}.

Record GetBentoResponse := mkGetBentoResponse {
  get_status : Status;
  get_bento : Bento
}.

Record AddBentoRequest := mkAddBentoRequest {
  add_bento_name : string;
  add_bento_version : string
}.

Record AddBentoResponse := mkAddBentoResponse {
  add_status : Status;
  add_uri : BentoUri
}.

Record UpdateBentoRequest := mkUpdateBentoRequest {
  upd_bento_name : string;
  upd_bento_version : string;
  upd_upload_status : UploadStatus;
  upd_service_metadata : BentoServiceMetadata
}.

Record ListBentoRequest := mkListBentoRequest {
  list_bento_name : option string;
  list_offset : Z;
  list_limit : Z;
  list_order_by : option string;
  list_ascending_order : option bool;
  list_label_selectors : option string
}.

Record ListBentoResponse := mkListBentoResponse {
  list_status : Status;
  list_bentos : list Bento
}.

Record DangerouslyDeleteBentoRequest := mkDeleteBentoRequest {
  del_bento_name : string;
  del_bento_version : string
}.

Record DangerouslyDeleteBentoResponse := mkDeleteBentoResponse {
  del_status : Status
}.

Record HttpResponse := mkHttpResponse {
  http_status_code : Z;
  http_text : string
}.

(** ** Traces *)

Inductive LogLevel := INFO | WARNING | LOG_ERROR.

Inductive event :=
| Ev_load_bento_service_metadata (path : string)
    (r : outcome BentoServiceMetadata)
| Ev_GetBento (req : GetBentoRequest) (resp : GetBentoResponse)
| Ev_AddBento (req : AddBentoRequest) (resp : AddBentoResponse)
| Ev_UpdateBento (req : UpdateBentoRequest)
| Ev_ListBento (req : ListBentoRequest) (resp : ListBentoResponse)
| Ev_DangerouslyDeleteBento (req : DangerouslyDeleteBentoRequest)
    (resp : DangerouslyDeleteBentoResponse)
| Ev_path_exists (path : string) (b : bool)
| Ev_rmtree (path : string) (r : outcome unit)
| Ev_copytree (src dst : string) (r : outcome unit)
| Ev_tar_add (src arcname : string) (r : outcome string)
| Ev_requests_put (url data : string) (r : outcome HttpResponse)
| Ev_safe_retrieve (path target : string) (r : outcome unit)
| Ev_confirm (prompt : string) (b : bool)
| Ev_log (level : LogLevel) (msg : string).

(** Remote procedure calls to a Yatai service. *)
Definition is_rpc (e : event) : bool :=
  match e with
  | Ev_GetBento _ _ | Ev_AddBento _ _ | Ev_UpdateBento _
  | Ev_ListBento _ _ | Ev_DangerouslyDeleteBento _ _ => true
  | _ => false
  end.

(** Writes to a storage backend: directory removal, directory copy,
    archive transfer. *)
Definition is_backend_write (e : event) : bool :=
  match e with
  | Ev_rmtree _ _ | Ev_copytree _ _ _ | Ev_requests_put _ _ _ => true
  | _ => false
  end.

(** The library call behind the event came back without raising. *)
Definition ev_ok (e : event) : bool :=
  match e with
  | Ev_load_bento_service_metadata _ r => is_Return r
  | Ev_rmtree _ r => is_Return r
  | Ev_copytree _ _ r => is_Return r
  | Ev_tar_add _ _ r => is_Return r
  | Ev_requests_put _ _ r => is_Return r
  | Ev_safe_retrieve _ _ r => is_Return r
  | _ => true
  end.

(** The upload statuses written by the [UpdateBento] calls of a trace, in
    order. *)
Fixpoint status_updates (tr : list event) : list UploadStatusCode :=
  match tr with
  | [] => []
  | Ev_UpdateBento req :: tr' =>
      us_status (upd_upload_status req) :: status_updates tr'
  | _ :: tr' => status_updates tr'
  end.

(** ** The monad of client code *)

Section Monad.
Context {W : Type}.

Definition M (A : Type) : Type := W → outcome A * list event * W.

Definition ret {A} (a : A) : M A := λ w, (Return a, [], w).

Definition raise {A} (e : exn) : M A := λ w, (Raise e, [], w).

Definition bind {A B} (m : M A) (k : A → M B) : M B :=
  λ w,
    match m w with
    | (Return a, t1, w1) =>
        match k a w1 with
        | (o, t2, w2) => (o, t1 ++ t2, w2)
        end
    | (Raise e, t1, w1) => (Raise e, t1, w1)
    end.

(** A pure library function that may raise. *)
Definition lift {A} (o : outcome A) : M A := λ w, (o, [], w).

Definition log (level : LogLevel) (msg : string) : M unit :=
  λ w, (Return tt, [Ev_log level msg], w).
End Monad.

Notation "x <- m ;; k" := (bind m (λ x, k))
  (at level 100, m at next level, right associativity).
Notation "m ;;; k" := (bind m (λ _, k))
  (at level 100, right associativity).

(** ** [bentoml/cli/utils.py] *)

Section ParseKeyValuePairs.
Context {W : Type}.

(** The body of the [for] loop of [parse_key_value_pairs], over the
    tokens still to be read, with the dictionary built so far. *)
Fixpoint parse_tokens (tokens : list string) (result : gmap string string)
  : M (W := W) (gmap string string) :=
  match tokens with
  | [] => ret result
  | key_value_pair :: rest =>
      kv <- lift (unpack2 (PyStr.split "="%char key_value_pair)) ;;
      let key := PyStr.strip kv.1 in
      let value := PyStr.strip kv.2 in
      (if decide (is_Some (result !! key))
       then log WARNING
              ("duplicated key '" +:+ key
                 +:+ "' found string map parameter")
       else ret tt) ;;;
      parse_tokens rest (<[key := value]> result)
  end.

Definition parse_key_value_pairs (key_value_pairs_str : option string)
  : M (W := W) (gmap string string) :=
  match key_value_pairs_str with
  | None | Some EmptyString => ret ∅
  | Some s => parse_tokens (PyStr.split ","%char s) ∅
  end.
End ParseKeyValuePairs.

(** ** [bentoml/yatai/client/bento_repository_api.py] *)

(** Truth value of a string in a condition: non-empty. *)
Definition truthy (s : string) : bool :=
  match s with EmptyString => false | String _ _ => true end.

(** [f'{x}'] for an argument that may be [None]. *)
Definition fmt_opt (o : option string) : string := default "None" o.

(** The integer a [BentoUri.type] prints as. *)
Definition StorageType_value (t : StorageType) : Z :=
  match t with
  | LOCAL => 1
  | S3 => 2
  | GCS => 3
  | OTHER_STORAGE n => n
  end.

Section Client.
Context {W : Type}.

(** The stub [self.yatai_service].  Following the transport contract,
    each operation answers with a response message carrying a status. *)
Record YataiService := mkYataiService {
  GetBento : GetBentoRequest → W → GetBentoResponse * W;
  AddBento : AddBentoRequest → W → AddBentoResponse * W;
  UpdateBento : UpdateBentoRequest → W → W;
  ListBento : ListBentoRequest → W → ListBentoResponse * W;
  DangerouslyDeleteBento :
    DangerouslyDeleteBentoRequest → W → DangerouslyDeleteBentoResponse * W
}.

(** What the client imports from outside this file.  Calls that touch
    the file system or the network may raise. *)
Record Library := mkLibrary {
  load_bento_service_metadata :
    string → W → outcome BentoServiceMetadata * W;
  _validate_labels : gmap string string → outcome unit;
  generate_gprc_labels_selector : string → outcome string;
  os_path_exists : string → W → bool * W;
  shutil_rmtree : string → W → outcome unit * W;
  shutil_copytree : string → string → W → outcome unit * W;
  tar_add : string → string → W → outcome string * W;
  requests_put : string → string → W → outcome HttpResponse * W;
  safe_retrieve : string → string → W → outcome unit * W;
  click_confirm : string → W → bool * W;
  get_yatai_client : YataiService
}.

Variable lib : Library.

(** *** Recorded calls *)

Definition call_GetBento (svc : YataiService) (req : GetBentoRequest)
  : M GetBentoResponse :=
  λ w, let '(r, w') := GetBento svc req w in
       (Return r, [Ev_GetBento req r], w').

Definition call_AddBento (svc : YataiService) (req : AddBentoRequest)
  : M AddBentoResponse :=
  λ w, let '(r, w') := AddBento svc req w in
       (Return r, [Ev_AddBento req r], w').

Definition call_UpdateBento (svc : YataiService) (req : UpdateBentoRequest)
  : M unit :=
  λ w, (Return tt, [Ev_UpdateBento req], UpdateBento svc req w).

Definition call_ListBento (svc : YataiService) (req : ListBentoRequest)
  : M ListBentoResponse :=
  λ w, let '(r, w') := ListBento svc req w in
       (Return r, [Ev_ListBento req r], w').

Definition call_DangerouslyDeleteBento (svc : YataiService)
    (req : DangerouslyDeleteBentoRequest)
  : M DangerouslyDeleteBentoResponse :=
  λ w, let '(r, w') := DangerouslyDeleteBento svc req w in
       (Return r, [Ev_DangerouslyDeleteBento req r], w').

Definition call_load_bento_service_metadata (path : string)
  : M BentoServiceMetadata :=
  λ w, let '(r, w') := load_bento_service_metadata lib path w in
       (r, [Ev_load_bento_service_metadata path r], w').

Definition call_path_exists (path : string) : M bool :=
  λ w, let '(b, w') := os_path_exists lib path w in
       (Return b, [Ev_path_exists path b], w').

Definition call_rmtree (path : string) : M unit :=
  λ w, let '(r, w') := shutil_rmtree lib path w in
       (r, [Ev_rmtree path r], w').

Definition call_copytree (src dst : string) : M unit :=
  λ w, let '(r, w') := shutil_copytree lib src dst w in
       (r, [Ev_copytree src dst r], w').

Definition call_tar_add (src arcname : string) : M string :=
  λ w, let '(r, w') := tar_add lib src arcname w in
       (r, [Ev_tar_add src arcname r], w').

Definition call_requests_put (url data : string) : M HttpResponse :=
  λ w, let '(r, w') := requests_put lib url data w in
       (r, [Ev_requests_put url data r], w').

Definition call_safe_retrieve (path target : string) : M unit :=
  λ w, let '(r, w') := safe_retrieve lib path target w in
       (r, [Ev_safe_retrieve path target r], w').

Definition call_confirm (prompt : string) : M bool :=
  λ w, let '(b, w') := click_confirm lib prompt w in
       (Return b, [Ev_confirm prompt b], w').

(** *** [_update_bento_upload_progress] *)

Definition _update_bento_upload_progress (svc : YataiService)
    (bento_service_metadata : BentoServiceMetadata)
    (status : UploadStatusCode) (percentage : option Z) : M unit :=
  let upload_status := mkUploadStatus status percentage in
  let update_bento_req :=
    mkUpdateBentoRequest
      (md_name bento_service_metadata)
      (md_version bento_service_metadata)
      upload_status
      bento_service_metadata in
  call_UpdateBento svc update_bento_req.

(** *** [upload_from_dir] *)

Definition already_registered_msg (name version : string) : string :=
  "BentoService bundle " +:+ name +:+ ":" +:+ version
    +:+ " already registered in repository. Reset "
    +:+ "BentoService version with BentoService#set_version or bypass BentoML's"
    +:+ " model registry feature with BentoService#save_to_dir".

Definition failed_accessing_msg (s : Status) : string :=
  "Failed accessing YataiService. " +:+ Status_Name (status_code s)
    +:+ ":" +:+ error_message s.

Definition error_adding_msg (s : Status) : string :=
  "Error adding BentoService bundle to repository: "
    +:+ Status_Name (status_code s) +:+ ":" +:+ error_message s.

Definition error_saving_msg (uri_type : string) (r : HttpResponse)
  : string :=
  "Error saving BentoService bundle to " +:+ uri_type +:+ "."
    +:+ pretty (http_status_code r) +:+ ": " +:+ http_text r.

Definition not_supported_msg (u : BentoUri) : string :=
  "Error saving Bento to target repository, URI type "
    +:+ pretty (StorageType_value (uri_type u))
    +:+ " at " +:+ uri_uri u +:+ " not supported".

Definition upload_from_dir (svc : YataiService) (saved_bento_path : string)
    (labels : option (gmap string string)) : M string :=
  loaded <- call_load_bento_service_metadata saved_bento_path ;;
  bento_service_metadata <-
    match labels with
    | Some l =>
        if bool_decide (l ≠ ∅) then
          (lift (_validate_labels lib l) ;;;
           ret (mkMetadata (md_name loaded) (md_version loaded)
                  (l ∪ md_labels loaded)))
        else ret loaded
    | None => ret loaded
    end ;;
  get_bento_response <-
    call_GetBento svc
      (mkGetBentoRequest (md_name bento_service_metadata)
         (md_version bento_service_metadata)) ;;
  if bool_decide (status_code (get_status get_bento_response) = OK) then
    raise (BentoMLException
             (already_registered_msg (md_name bento_service_metadata)
                (md_version bento_service_metadata)))
  else if bool_decide
            (status_code (get_status get_bento_response) ≠ NOT_FOUND) then
    raise (BentoMLException
             (failed_accessing_msg (get_status get_bento_response)))
  else
    response <-
      call_AddBento svc
        (mkAddBentoRequest (md_name bento_service_metadata)
           (md_version bento_service_metadata)) ;;
    if bool_decide (status_code (add_status response) ≠ OK) then
      raise (BentoMLException (error_adding_msg (add_status response)))
    else if bool_decide (uri_type (add_uri response) = LOCAL) then
      dst_exists <- call_path_exists (uri_uri (add_uri response)) ;;
      (if dst_exists then call_rmtree (uri_uri (add_uri response))
       else ret tt) ;;;
      call_copytree saved_bento_path (uri_uri (add_uri response)) ;;;
      _update_bento_upload_progress svc bento_service_metadata DONE None ;;;
      log INFO
        ("BentoService bundle '" +:+ md_name bento_service_metadata
           +:+ ":" +:+ md_version bento_service_metadata
           +:+ "' saved to: " +:+ uri_uri (add_uri response)) ;;;
      ret (uri_uri (add_uri response))
    else if bool_decide (uri_type (add_uri response) = S3)
            || bool_decide (uri_type (add_uri response) = GCS) then
      let uri_type_name :=
        if bool_decide (uri_type (add_uri response) = S3)
        then "S3" else "GCS" in
      _update_bento_upload_progress svc bento_service_metadata
        UPLOADING (Some 0) ;;;
      fileobj <-
        call_tar_add saved_bento_path (md_name bento_service_metadata) ;;
      http_response <-
        (if bool_decide (uri_type (add_uri response) = S3) then
           call_requests_put (s3_presigned_url (add_uri response)) fileobj
         else
           call_requests_put (gcs_presigned_url (add_uri response))
             fileobj) ;;
      if bool_decide (http_status_code http_response ≠ 200) then
        _update_bento_upload_progress svc bento_service_metadata
          ERROR None ;;;
        raise (BentoMLException
                 (error_saving_msg uri_type_name http_response))
      else
        _update_bento_upload_progress svc bento_service_metadata
          DONE None ;;;
        log INFO
          ("Successfully saved BentoService bundle '"
             +:+ md_name bento_service_metadata +:+ ":"
             +:+ md_version bento_service_metadata
             +:+ "' to {uri_type}: " +:+ uri_uri (add_uri response)) ;;;
        ret (uri_uri (add_uri response))
    else
      raise (BentoMLException (not_supported_msg (add_uri response))).

(** *** [get] *)

Definition name_or_version_missing_msg : string :=
  "BentoService name or version is missing. Please provide in the "
    +:+ "format of name:version".

Definition not_found_msg (name version : string) (s : Status) : string :=
  "BentoService " +:+ name +:+ ":" +:+ version +:+ " not found - "
    +:+ Status_Name (status_code s) +:+ ":" +:+ error_message s.

Definition get (svc : YataiService) (bento : string) : M Bento :=
  if negb (PyStr.contains ":"%char bento) then
    raise (BentoMLException name_or_version_missing_msg)
  else
    name_version <- lift (unpack2 (PyStr.split ":"%char bento)) ;;
    let name := name_version.1 in
    let version := name_version.2 in
    result <- call_GetBento svc (mkGetBentoRequest name version) ;;
    if bool_decide (status_code (get_status result) ≠ OK) then
      raise (BentoMLException
               (not_found_msg name version (get_status result)))
    else ret (get_bento result).

(** *** [list] *)

Definition list_error_msg (s : Status) : string :=
  Status_Name (status_code s) +:+ ":" +:+ error_message s.

(** The method [list], written [list_] to keep the type of lists in
    reach.  An unset [offset] or [limit] leaves the numeric field of the
    request at its default, 0. *)
Definition list_ (svc : YataiService) (bento_name : option string)
    (offset limit : option Z) (labels : option string)
    (order_by : option string) (ascending_order : option bool)
  : M (list Bento) :=
  label_selectors <-
    match labels with
    | Some l =>
        sel <- lift (generate_gprc_labels_selector lib l) ;; ret (Some sel)
    | None => ret None
    end ;;
  let list_bento_request :=
    mkListBentoRequest bento_name (default 0 offset) (default 0 limit)
      order_by ascending_order label_selectors in
  result <- call_ListBento svc list_bento_request ;;
  if bool_decide (status_code (list_status result) ≠ OK) then
    raise (BentoMLException (list_error_msg (list_status result)))
  else ret (list_bentos result).

(** *** [_delete_bento_bundle] *)

Definition failed_to_delete_msg (b : Bento) (s : Status) : string :=
  "Failed to delete " +:+ bento_name b +:+ ":" +:+ bento_version b
    +:+ " - " +:+ Status_Name (status_code s) +:+ ":" +:+ error_message s.

Definition deleted_msg (b : Bento) : string :=
  "Deleted " +:+ bento_name b +:+ ":" +:+ bento_version b.

Definition _delete_bento_bundle (svc : YataiService) (bento_tag : string)
    (require_confirm : bool) : M unit :=
  bento_pb <- get svc bento_tag ;;
  declined <-
    (if require_confirm then
       answer <-
         call_confirm ("Permanently delete " +:+ bento_tag +:+ "?") ;;
       ret (negb answer)
     else ret false) ;;
  if declined then ret tt
  else
    result <-
      call_DangerouslyDeleteBento svc
        (mkDeleteBentoRequest (bento_name bento_pb)
           (bento_version bento_pb)) ;;
    if bool_decide (status_code (del_status result) ≠ OK) then
      log LOG_ERROR (failed_to_delete_msg bento_pb (del_status result))
    else log INFO (deleted_msg bento_pb).

(** *** [delete] *)

Definition delete_list_limit : Z := 50.

Definition bento_tag_of (b : Bento) : string :=
  bento_name b +:+ ":" +:+ bento_version b.

(** The inner [for bento in bento_list] of the bulk branch. *)
Fixpoint delete_page (svc : YataiService) (bento_list : list Bento)
    (require_confirm : bool) : M unit :=
  match bento_list with
  | [] => ret tt
  | bento :: rest =>
      _delete_bento_bundle svc (bento_tag_of bento) require_confirm ;;;
      delete_page svc rest require_confirm
  end.

(** A computation of [delete] that has not finished within the given
    number of turns of its [while] loop has no result. *)
Definition run (A : Type) : Type := option (outcome A * list event * W).

(** The [while offset >= 0] loop of the bulk branch; [fuel] bounds the
    number of turns. *)
Fixpoint delete_loop (fuel : nat) (svc : YataiService)
    (bento_name labels : option string) (require_confirm : bool)
    (offset : Z) (w : W) : run unit :=
  match fuel with
  | O => None
  | S fuel' =>
      if negb (0 <=? offset) then Some (Return tt, [], w)
      else
        match list_ svc bento_name (Some offset) (Some delete_list_limit)
                labels None None w with
        | (Raise e, t1, w1) => Some (Raise e, t1, w1)
        | (Return bento_list, t1, w1) =>
            let offset := offset + delete_list_limit in
            if bool_decide (length bento_list = 0%nat) then
              Some (Return tt, t1, w1)
            else
              match delete_page svc bento_list require_confirm w1 with
              | (Raise e, t2, w2) => Some (Raise e, t1 ++ t2, w2)
              | (Return _, t2, w2) =>
                  match delete_loop fuel' svc bento_name labels
                          require_confirm offset w2 with
                  | Some (o, t3, w3) => Some (o, t1 ++ t2 ++ t3, w3)
                  | None => None
                  end
              end
        end
  end.

Definition bulk_log_message (bento_name labels : option string) : string :=
  "Deleting saved Bento bundles"
    +:+ match bento_name with
        | Some n => " with name: " +:+ n +:+ ","
        | None => ""
        end
    +:+ match labels with
        | Some l => " with labels match to " +:+ l
        | None => ""
        end.

Definition delete (svc : YataiService)
    (bento_tag labels bento_name bento_version : option string)
    (prune require_confirm : bool) (fuel : nat) (w : W) : run unit :=
  if bool_decide (bento_tag ≠ None) && bool_decide (bento_name ≠ None)
     && bool_decide (bento_version ≠ None) then
    Some (raise (BentoMLException "Too much arguments") w)
  else if bool_decide (bento_tag ≠ None) then
    Some ((log INFO ("Deleting saved Bento bundle " +:+ fmt_opt bento_tag) ;;;
           _delete_bento_bundle svc (fmt_opt bento_tag) require_confirm) w)
  else if bool_decide (bento_name ≠ None)
          && bool_decide (bento_tag ≠ None) then
    Some ((log INFO ("Deleting saved Bento bundle " +:+ fmt_opt bento_name
                       +:+ ":" +:+ fmt_opt bento_version) ;;;
           _delete_bento_bundle svc
             (fmt_opt bento_name +:+ ":" +:+ fmt_opt bento_version)
             require_confirm) w)
  else
    let bento_name := if prune then None else bento_name in
    let labels := if prune then None else labels in
    let message :=
      if prune then "Deleting all BentoML saved bundles."
      else bulk_log_message bento_name labels in
    match delete_loop fuel svc bento_name labels require_confirm 0 w with
    | Some (o, t, w') => Some (o, Ev_log INFO message :: t, w')
    | None => None
    end.

(** *** [push] and [download_to_directory] *)

Definition push (svc : YataiService) (bento : string) (with_labels : bool)
  : M string :=
  let local_yc := get_yatai_client lib in
  local_bento_pb <- get local_yc bento ;;
  let bento_bundle_path :=
    if truthy (s3_presigned_url (bento_uri local_bento_pb)) then
      s3_presigned_url (bento_uri local_bento_pb)
    else if truthy (gcs_presigned_url (bento_uri local_bento_pb)) then
      gcs_presigned_url (bento_uri local_bento_pb)
    else uri_uri (bento_uri local_bento_pb) in
  let labels :=
    if with_labels
       && bool_decide
            (md_labels (bento_service_metadata local_bento_pb) ≠ ∅)
    then Some (md_labels (bento_service_metadata local_bento_pb))
    else None in
  upload_from_dir svc bento_bundle_path labels.

Definition download_to_directory (bento_pb : Bento) (target_dir : string)
  : M unit :=
  let bento_service_bundle_path :=
    if truthy (s3_presigned_url (bento_uri bento_pb)) then
      s3_presigned_url (bento_uri bento_pb)
    else if truthy (gcs_presigned_url (bento_uri bento_pb)) then
      gcs_presigned_url (bento_uri bento_pb)
    else uri_uri (bento_uri bento_pb) in
  call_safe_retrieve bento_service_bundle_path target_dir.
End Client.

Arguments YataiService : clear implicits.
Arguments Library : clear implicits.

(** ** A scripted environment

    The world has no state: every call is answered from a table of
    answers, by its arguments alone.  It gives the client code concrete
    surroundings to run in. *)

Module Oracle.

Record script := mkScript {
  sc_metadata : string → outcome BentoServiceMetadata;
  sc_validate : gmap string string → outcome unit;
  sc_get : GetBentoRequest → GetBentoResponse;
  sc_add : AddBentoRequest → AddBentoResponse;
  sc_list : ListBentoRequest → ListBentoResponse;
  sc_delete : DangerouslyDeleteBentoRequest → DangerouslyDeleteBentoResponse;
  sc_exists : string → bool;
  sc_rmtree : string → outcome unit;
  sc_copytree : string → string → outcome unit;
  sc_put : string → string → outcome HttpResponse;
  sc_confirm : string → bool
}.

Definition service (s : script) : YataiService unit :=
  {| GetBento := λ req w, (sc_get s req, w);
     AddBento := λ req w, (sc_add s req, w);
     UpdateBento := λ _ w, w;
     ListBento := λ req w, (sc_list s req, w);
     DangerouslyDeleteBento := λ req w, (sc_delete s req, w) |}.

Definition library (s : script) : Library unit :=
  {| load_bento_service_metadata := λ path w, (sc_metadata s path, w);
     _validate_labels := sc_validate s;
     generate_gprc_labels_selector := λ l, Return l;
     os_path_exists := λ path w, (sc_exists s path, w);
     shutil_rmtree := λ path w, (sc_rmtree s path, w);
     shutil_copytree := λ src dst w, (sc_copytree s src dst, w);
     tar_add := λ src arcname w, (Return ("tar:" +:+ arcname), w);
     requests_put := λ url data w, (sc_put s url data, w);
     safe_retrieve := λ _ _ w, (Return tt, w);
     click_confirm := λ prompt w, (sc_confirm s prompt, w);
     get_yatai_client := service s |}.

Definition ok : Status := mkStatus OK "".
Definition not_found : Status := mkStatus NOT_FOUND "not found".
Definition internal : Status := mkStatus (OTHER_CODE "INTERNAL") "boom".

Definition no_uri : BentoUri := mkBentoUri (OTHER_STORAGE 0) "" "" "".
Definition no_bento : Bento :=
  mkBento "" "" no_uri (mkMetadata "" "" ∅).

Definition demo_metadata : BentoServiceMetadata :=
  mkMetadata "demo" "1.0.0" ∅.

Definition demo_bento (u : BentoUri) : Bento :=
  mkBento "demo" "1.0.0" u demo_metadata.

(** A script for an upload of the bundle [demo:1.0.0] found under
    [/tmp/demo]: the answer of Get, the answer of Add, whether the
    destination exists, and the answer to the PUT are the arguments. *)
Definition upload_script (get : Status) (add : AddBentoResponse)
    (dst_exists : bool) (put : outcome HttpResponse) : script :=
  {| sc_metadata := λ _, Return demo_metadata;
     sc_validate := λ _, Return tt;
     sc_get := λ _, mkGetBentoResponse get (demo_bento (add_uri add));
     sc_add := λ _, add;
     sc_list := λ _, mkListBentoResponse ok [];
     sc_delete := λ _, mkDeleteBentoResponse ok;
     sc_exists := λ _, dst_exists;
     sc_rmtree := λ _, Return tt;
     sc_copytree := λ _ _, Return tt;
     sc_put := λ _ _, put;
     sc_confirm := λ _, true |}.

Definition local_uri : BentoUri :=
  mkBentoUri LOCAL "/repo/demo/1.0.0" "" "".
Definition s3_uri : BentoUri :=
  mkBentoUri S3 "s3://bucket/demo/1.0.0" "https://s3/put?sig" "".
Definition gcs_uri : BentoUri :=
  mkBentoUri GCS "gs://bucket/demo/1.0.0" "" "https://gcs/put?sig".

(** A script for deletions: the listing answers with [page] at offset 0
    and with nothing further on; Get and Delete answer with the given
    statuses. *)
Definition delete_script (page : list Bento) (get del : Status) : script :=
  {| sc_metadata := λ _, Return demo_metadata;
     sc_validate := λ _, Return tt;
     sc_get := λ req,
       mkGetBentoResponse get
         (mkBento (get_bento_name req) (get_bento_version req) no_uri
            (mkMetadata (get_bento_name req) (get_bento_version req) ∅));
     sc_add := λ _, mkAddBentoResponse ok local_uri;
     sc_list := λ req,
       mkListBentoResponse ok
         (if bool_decide (list_offset req = 0) then page else []);
     sc_delete := λ _, mkDeleteBentoResponse del;
     sc_exists := λ _, false;
     sc_rmtree := λ _, Return tt;
     sc_copytree := λ _ _, Return tt;
     sc_put := λ _ _, Return (mkHttpResponse 200 "");
     sc_confirm := λ _, true |}.

End Oracle.

(** ** A registry

    Modelled from the spec: the metadata authority behind the stub (the
    Yatai service itself is not part of the sources).  It keeps the
    registered bundles in listing order, with [(name, version)] as key; Get
    looks a reference up; List filters by exact name and by label selector
    and cuts the page [offset, offset + limit) out of what matches; Delete
    removes the reference.  [faults] is a schedule of injected failures:
    each Delete call consumes its head, and fails without touching the
    bundles when the head is [true]. *)

Module Registry.

Record state := mkState {
  bundles : list Bento;
  faults : list bool
}.

Definition same_ref (name version : string) (b : Bento) : bool :=
  bool_decide (bento_name b = name) && bool_decide (bento_version b = version).

Section Service.
(** How a label selector picks bundles is left to the authority. *)
Variable selects : string → Bento → bool.

Definition matches (req : ListBentoRequest) (b : Bento) : bool :=
  match list_bento_name req with
  | Some n => bool_decide (bento_name b = n)
  | None => true
  end
  && match list_label_selectors req with
     | Some sel => selects sel b
     | None => true
     end.

Definition page (req : ListBentoRequest) (bs : list Bento) : list Bento :=
  take (Z.to_nat (list_limit req))
    (drop (Z.to_nat (list_offset req)) (filter (λ b, matches req b) bs)).

Definition reg_get (req : GetBentoRequest) (st : state)
  : GetBentoResponse * state :=
  match
    List.find (same_ref (get_bento_name req) (get_bento_version req))
      (bundles st)
  with
  | Some b => (mkGetBentoResponse Oracle.ok b, st)
  | None => (mkGetBentoResponse Oracle.not_found Oracle.no_bento, st)
  end.

Definition reg_add (req : AddBentoRequest) (st : state)
  : AddBentoResponse * state :=
  let u :=
    mkBentoUri LOCAL
      ("/repo/" +:+ add_bento_name req +:+ "/" +:+ add_bento_version req)
      "" "" in
  (mkAddBentoResponse Oracle.ok u,
   mkState
     (bundles st ++
        [mkBento (add_bento_name req) (add_bento_version req) u
           (mkMetadata (add_bento_name req) (add_bento_version req) ∅)])
     (faults st)).

Definition reg_update (req : UpdateBentoRequest) (st : state) : state :=
  st.

Definition reg_list (req : ListBentoRequest) (st : state)
  : ListBentoResponse * state :=
  (mkListBentoResponse Oracle.ok (page req (bundles st)), st).

Definition remove_ref (name version : string) (bs : list Bento)
  : list Bento :=
  filter (λ b, same_ref name version b = false) bs.

Definition reg_delete (req : DangerouslyDeleteBentoRequest) (st : state)
  : DangerouslyDeleteBentoResponse * state :=
  match faults st with
  | true :: fs =>
      (mkDeleteBentoResponse Oracle.internal, mkState (bundles st) fs)
  | fs =>
      (mkDeleteBentoResponse Oracle.ok,
       mkState
         (remove_ref (del_bento_name req) (del_bento_version req)
            (bundles st))
         (tail fs))
  end.

Definition service : YataiService state :=
  {| GetBento := reg_get;
     AddBento := reg_add;
     UpdateBento := reg_update;
     ListBento := reg_list;
     DangerouslyDeleteBento := reg_delete |}.

(** The registry lives on the authority's side; the client's own
    machine offers no bundle directories here, and the user confirms
    every prompt. *)
Definition library : Library state :=
  {| load_bento_service_metadata :=
       λ _ st, (Raise (LibraryError "no such directory"), st);
     _validate_labels := λ _, Return tt;
     generate_gprc_labels_selector := λ l, Return l;
     os_path_exists := λ _ st, (false, st);
     shutil_rmtree := λ _ st, (Return tt, st);
     shutil_copytree := λ _ _ st, (Return tt, st);
     tar_add := λ _ _ st, (Raise (LibraryError "no such directory"), st);
     requests_put := λ _ _ st, (Raise (LibraryError "no network"), st);
     safe_retrieve := λ _ _ st, (Return tt, st);
     click_confirm := λ _ st, (true, st);
     get_yatai_client := service |}.

(** [delete(prune=True)] against the registry. *)
Definition prune (require_confirm : bool) (fuel : nat) (st : state)
  : run unit :=
  delete library service None None None None true require_confirm fuel st.
End Service.

(** [n] bundles [b:0], [b:1], ..., one name, [n] versions. *)
Definition numbered (n : nat) : list Bento :=
  (λ i : nat,
     mkBento "b" (pretty i) Oracle.no_uri (mkMetadata "b" (pretty i) ∅))
    <$> seq 0 n.

End Registry.

(** ** Vocabulary of the properties *)

(** *** Key/value tokens *)

(** The key and the value of a token, cut at its first [=]. *)
Definition token_key (t : string) : string :=
  PyStr.strip (PyStr.before "="%char t).
Definition token_value (t : string) : string :=
  PyStr.strip (PyStr.after "="%char t).

(** The value of the last token whose key is [k]. *)
Fixpoint last_value (k : string) (tokens : list string) : option string :=
  match tokens with
  | [] => None
  | t :: rest =>
      match last_value k rest with
      | Some v => Some v
      | None => if decide (token_key t = k) then Some (token_value t)
                else None
      end
  end.

(** *** Uploads *)

(** The status update the client sends for a bundle. *)
Definition Ev_status (md : BentoServiceMetadata) (st : UploadStatusCode)
    (pct : option Z) : event :=
  Ev_UpdateBento
    (mkUpdateBentoRequest (md_name md) (md_version md)
       (mkUploadStatus st pct) md).

(** The metadata an upload registers: what was read from the bundle
    directory, with the labels of the call merged over its own. *)
Definition merged_metadata (md0 : BentoServiceMetadata)
    (labels : option (gmap string string)) : BentoServiceMetadata :=
  match labels with
  | Some l =>
      if bool_decide (l ≠ ∅)
      then mkMetadata (md_name md0) (md_version md0) (l ∪ md_labels md0)
      else md0
  | None => md0
  end.

(** The location chosen for a URI record: the S3 presigned URL when
    there is one, else the GCS presigned URL when there is one, else the
    direct URI. *)
Definition prefers_presigned (u : BentoUri) (p : string) : Prop :=
  (s3_presigned_url u ≠ "" → p = s3_presigned_url u)
  ∧ (s3_presigned_url u = "" → gcs_presigned_url u ≠ "" →
     p = gcs_presigned_url u)
  ∧ (s3_presigned_url u = "" → gcs_presigned_url u = "" → p = uri_uri u).

(** *** References *)

(** Neither part of the reference holds the separator. *)
Definition wf_ref (b : Bento) : Prop :=
  PyStr.count ":"%char (bento_name b) = 0%nat
  ∧ PyStr.count ":"%char (bento_version b) = 0%nat.

Global Instance wf_ref_dec b : Decision (wf_ref b).
Proof. unfold wf_ref. apply _. Defined.

Definition ref_request (b : Bento) : GetBentoRequest :=
  mkGetBentoRequest (bento_name b) (bento_version b).

(** The key of a bundle at the authority. *)
Definition ref_of (b : Bento) : string * string :=
  (bento_name b, bento_version b).

(** The name filter of a listing. *)
Definition name_matches (name : option string) (b : Bento) : bool :=
  match name with
  | Some n => bool_decide (bento_name b = n)
  | None => true
  end.

(** *** What a trace says about a bulk deletion *)

Definition list_events (tr : list event)
  : list (ListBentoRequest * ListBentoResponse) :=
  omap (λ e, match e with Ev_ListBento q r => Some (q, r) | _ => None end) tr.

Definition get_events (tr : list event)
  : list (GetBentoRequest * GetBentoResponse) :=
  omap (λ e, match e with Ev_GetBento q r => Some (q, r) | _ => None end) tr.

Definition delete_events (tr : list event)
  : list (DangerouslyDeleteBentoRequest * DangerouslyDeleteBentoResponse) :=
  omap (λ e, match e with
             | Ev_DangerouslyDeleteBento q r => Some (q, r)
             | _ => None
             end) tr.

Definition error_logs (tr : list event) : list string :=
  omap (λ e, match e with Ev_log LOG_ERROR msg => Some msg | _ => None end) tr.


Definition delete_failed
    (qr : DangerouslyDeleteBentoRequest * DangerouslyDeleteBentoResponse)
  : bool :=
  bool_decide (status_code (del_status qr.2) ≠ OK).

(** The error line logged for a refused deletion. *)
Definition failure_line
    (qr : DangerouslyDeleteBentoRequest * DangerouslyDeleteBentoResponse)
  : string :=
  "Failed to delete " +:+ del_bento_name qr.1 +:+ ":"
    +:+ del_bento_version qr.1 +:+ " - "
    +:+ Status_Name (status_code (del_status qr.2)) +:+ ":"
    +:+ error_message (del_status qr.2).

(** The request of the page at [offset]. *)
Definition page_request (bento_name selectors : option string)
    (offset : Z) : ListBentoRequest :=
  mkListBentoRequest bento_name offset delete_list_limit None None
    selectors.

Section Selectors.
Context {W : Type} (lib : Library W).

(** The selector sent for a label expression. *)
Definition selectors_of (labels : option string) : outcome (option string) :=
  match labels with
  | Some l =>
      match generate_gprc_labels_selector lib l with
      | Return sel => Return (Some sel)
      | Raise e => Raise e
      end
  | None => Return None
  end.
End Selectors.

(** *** What the surroundings answer to an upload *)

(** The labels of the call pass the validation: there are none, or
    [_validate_labels] returns. *)
Definition labels_accepted {W : Type} (lib : Library W)
    (labels : option (gmap string string)) : Prop :=
  ∀ l, labels = Some l → l ≠ ∅ → _validate_labels lib l = Return tt.

(** The reference an upload asks for and adds. *)
Definition upload_get (md : BentoServiceMetadata) : GetBentoRequest :=
  mkGetBentoRequest (md_name md) (md_version md).
Definition upload_add (md : BentoServiceMetadata) : AddBentoRequest :=
  mkAddBentoRequest (md_name md) (md_version md).

(** The line logged by a finished Local upload. *)
Definition saved_to_msg (md : BentoServiceMetadata) (dst : string)
  : string :=
  "BentoService bundle '" +:+ md_name md +:+ ":" +:+ md_version md
    +:+ "' saved to: " +:+ dst.

(** The request of a status update for a bundle. *)
Definition status_request (md : BentoServiceMetadata)
    (st : UploadStatusCode) (pct : option Z) : UpdateBentoRequest :=
  mkUpdateBentoRequest (md_name md) (md_version md)
    (mkUploadStatus st pct) md.

(** The labels a push hands to the upload. *)
Definition push_labels (with_labels : bool) (b : Bento)
  : option (gmap string string) :=
  if with_labels && bool_decide (md_labels (bento_service_metadata b) ≠ ∅)
  then Some (md_labels (bento_service_metadata b))
  else None.

(** *** What a trace says about the bundles of a bulk deletion *)

(** The prompts the user answered with no. *)
Definition declined (tr : list event) : list string :=
  omap (λ e, match e with Ev_confirm p false => Some p | _ => None end) tr.



(** *** The loop, as a relation *)

Section LoopRun.
Context {W : Type} (lib : Library W) (svc : YataiService W).
Variables (bento_name labels : option string) (require_confirm : bool).

Local Abbreviation list_page offset w :=
  (list_ lib svc bento_name (Some offset) (Some delete_list_limit) labels
     None None w).

(** [loop_run offset w out tr w']: entered with [offset] in world [w],
    the [while] loop ends with [out], having done [tr] and reached
    [w']. *)
Inductive loop_run : Z → W → outcome unit → list event → W → Prop :=
| loop_guard offset w :
    offset < 0 → loop_run offset w (Return tt) [] w
| loop_list_raises offset w e t1 w1 :
    0 ≤ offset →
    list_page offset w = (Raise e, t1, w1) →
    loop_run offset w (Raise e) t1 w1
| loop_break offset w t1 w1 :
    0 ≤ offset →
    list_page offset w = (Return [], t1, w1) →
    loop_run offset w (Return tt) t1 w1
| loop_page_raises offset w page t1 w1 e t2 w2 :
    0 ≤ offset →
    list_page offset w = (Return page, t1, w1) →
    page ≠ [] →
    delete_page lib svc page require_confirm w1 = (Raise e, t2, w2) →
    loop_run offset w (Raise e) (t1 ++ t2) w2
| loop_again offset w page t1 w1 u t2 w2 out t3 w3 :
    0 ≤ offset →
    list_page offset w = (Return page, t1, w1) →
    page ≠ [] →
    delete_page lib svc page require_confirm w1 = (Return u, t2, w2) →
    loop_run (offset + delete_list_limit) w2 out t3 w3 →
    loop_run offset w out (t1 ++ t2 ++ t3) w3.
End LoopRun.

(** *** Runs in the scripted environment and in the registry *)

Module UploadRuns.
Import Oracle.

Definition upload (sc : script) : outcome string * list event * unit :=
  upload_from_dir (library sc) (service sc) "/tmp/demo" None tt.

Definition demo_get : GetBentoRequest := mkGetBentoRequest "demo" "1.0.0".
Definition demo_add : AddBentoRequest := mkAddBentoRequest "demo" "1.0.0".

(** The reference is registered already. *)
Definition registered : script :=
  upload_script ok (mkAddBentoResponse ok local_uri) false
    (Return (mkHttpResponse 200 "")).

(** A fresh reference, a local destination that exists. *)
Definition fresh_local : script :=
  upload_script not_found (mkAddBentoResponse ok local_uri) true
    (Return (mkHttpResponse 200 "")).

(** A fresh reference, a local destination, and a copy that fails. *)
Definition fresh_local_copy_fails : script :=
  {| sc_metadata := λ _, Return demo_metadata;
     sc_validate := λ _, Return tt;
     sc_get := λ _, mkGetBentoResponse not_found (demo_bento local_uri);
     sc_add := λ _, mkAddBentoResponse ok local_uri;
     sc_list := λ _, mkListBentoResponse ok [];
     sc_delete := λ _, mkDeleteBentoResponse ok;
     sc_exists := λ _, false;
     sc_rmtree := λ _, Return tt;
     sc_copytree := λ _ _, Raise (LibraryError "OSError: No space left");
     sc_put := λ _ _, Return (mkHttpResponse 200 "");
     sc_confirm := λ _, true |}.

(** A fresh reference, an S3 destination, and the answer to the PUT. *)
Definition fresh_s3 (code : Z) (body : string) : script :=
  upload_script not_found (mkAddBentoResponse ok s3_uri) false
    (Return (mkHttpResponse code body)).

(** A fresh reference, and a destination of a kind the client does not
    know. *)
Definition odd_uri : BentoUri := mkBentoUri (OTHER_STORAGE 0) "/repo/x" "" "".
Definition fresh_unknown : script :=
  upload_script not_found (mkAddBentoResponse ok odd_uri) false
    (Return (mkHttpResponse 200 "")).

End UploadRuns.

Module BulkRuns.
Import Oracle.

Definition a1 : Bento := mkBento "a" "1" no_uri (mkMetadata "a" "1" ∅).
Definition a2 : Bento := mkBento "a" "2" no_uri (mkMetadata "a" "2" ∅).

(** Every deletion is refused. *)
Definition refusing : script := delete_script [a1; a2] ok internal.


Definition refusing_trace : list event :=
  Eval vm_compute in
    match
      delete_loop (library refusing) 2 (service refusing) None None false 0 tt
    with
    | Some (_, t, _) => t
    | None => []
    end.

End BulkRuns.

(** What a finished run has left in the registry. *)
Definition left_over (r : run (W := Registry.state) unit)
  : option (outcome unit * list Bento) :=
  match r with
  | Some (out, _, st) => Some (out, Registry.bundles st)
  | None => None
  end.

(** * More of the package *)

(** ** More Python string primitives *)

Module PyMore.

(** [s.split(sep, 1)]: cut at the first occurrence only. *)
Definition split1 (sep : ascii) (s : string) : list string :=
  if PyStr.contains sep s then [PyStr.before sep s; PyStr.after sep s]
  else [s].

(** [s.rstrip(c)] for a one-character argument. *)
Fixpoint rstrip_char (c : ascii) (s : string) : string :=
  match s with
  | EmptyString => EmptyString
  | String d s' =>
      match rstrip_char c s' with
      | EmptyString =>
          if Ascii.eqb d c then EmptyString else String d EmptyString
      | r => String d r
      end
  end.

(** [s[:n]] for [n >= 0]. *)
Fixpoint take (n : nat) (s : string) : string :=
  match n, s with
  | O, _ => EmptyString
  | S _, EmptyString => EmptyString
  | S n', String c s' => String c (take n' s')
  end.

(** [s[:-1]]: all but the last character. *)
Fixpoint drop_last (s : string) : string :=
  match s with
  | EmptyString => EmptyString
  | String _ EmptyString => EmptyString
  | String c s' => String c (drop_last s')
  end.

(** [sep.join(l)] *)
Fixpoint join (sep : string) (l : list string) : string :=
  match l with
  | [] => EmptyString
  | [s] => s
  | s :: rest => s +:+ sep +:+ join sep rest
  end.

(** The class [[a-zA-Z0-9]] of a regular expression. *)
Definition is_ascii_alnum (c : ascii) : bool :=
  let n := N_of_ascii c in
  ((48 <=? n) && (n <=? 57) || (65 <=? n) && (n <=? 90)
   || (97 <=? n) && (n <=? 122))%N.

End PyMore.

(** ** [containerize] of the repository client *)

Record ContainerizeBentoRequest := mkContainerizeBentoRequest {
  cont_bento_name : string;
  cont_bento_version : string;
  cont_tag : option string;
  cont_build_args : option (gmap string string);
  cont_push : bool
}.

Record ContainerizeBentoResponse := mkContainerizeBentoResponse {
  cont_status : Status;
  cont_result_tag : string
}.

Definition failed_to_containerize_msg (bento : string) (s : Status)
  : string :=
  "Failed to containerize " +:+ bento +:+ " - "
    +:+ Status_Name (status_code s) +:+ ":" +:+ error_message s.

(** The stub operation [ContainerizeBento] is the first argument; the
    requests sent are returned beside the outcome. *)
Definition containerize {W : Type}
    (ContainerizeBento :
       ContainerizeBentoRequest → W → ContainerizeBentoResponse * W)
    (bento : string) (tag : option string)
    (build_args : option (gmap string string)) (push : bool) (w : W)
  : outcome string * list ContainerizeBentoRequest * W :=
  if negb (PyStr.contains ":"%char bento) then
    (Raise (BentoMLException name_or_version_missing_msg), [], w)
  else
    match unpack2 (PyStr.split ":"%char bento) with
    | Raise e => (Raise e, [], w)
    | Return (name, version) =>
        let containerize_request :=
          mkContainerizeBentoRequest name version tag build_args push in
        let '(result, w') := ContainerizeBento containerize_request w in
        if bool_decide (status_code (cont_status result) ≠ OK) then
          (Raise (BentoMLException
                    (failed_to_containerize_msg bento (cont_status result))),
           [containerize_request], w')
        else (Return (cont_result_tag result), [containerize_request], w')
    end.

(** ** [bentoml/cli/bento_service.py] *)

(** [add_options(options)(func)] *)
Definition add_options {A : Type} (options : list (A → A)) (func : A) : A :=
  foldl (λ func option, option func) func (reverse options).

(** [re.sub(r"([^a-zA-Z0-9])", r"\\\1", v)]: a backslash before every
    character outside the class. *)
Fixpoint escape_non_alnum (v : string) : string :=
  match v with
  | EmptyString => EmptyString
  | String c v' =>
      if PyMore.is_ascii_alnum c then String c (escape_non_alnum v')
      else String "\"%char (String c (escape_non_alnum v'))
  end.

Definition escape_shell_params (param : string) : outcome string :=
  match unpack2 (PyStr.split "="%char param) with
  | Raise e => Raise e
  | Return (k, v) =>
      let v := escape_non_alnum v in
      Return (k +:+ "=" +:+ v)
  end.

(** The loop of the command [containerize] that turns its [--build-arg]
    options into [docker_build_args]. *)
Fixpoint docker_build_args_loop (build_arg : list string)
    (docker_build_args : gmap string string)
  : outcome (gmap string string) :=
  match build_arg with
  | [] => Return docker_build_args
  | arg :: rest =>
      match unpack2 (PyMore.split1 "="%char arg) with
      | Raise e => Raise e
      | Return (key, value) =>
          docker_build_args_loop rest (<[key := value]> docker_build_args)
      end
  end.

Definition docker_build_args (build_arg : list string)
  : outcome (gmap string string) :=
  docker_build_args_loop build_arg ∅.

(** ** More of [bentoml/cli/utils.py] *)

(** [create_unique_name], local to [simple_deploy] and to
    [create_python_file]; [uuid4] is the text of the random UUID it
    draws. *)
Definition create_unique_name (uuid4 : string) (name : string) : string :=
  let name := PyMore.take 40 (name +:+ "-" +:+ uuid4) in
  if bool_decide (PyMore.drop_last name = "-") then PyMore.drop_last name
  else name.

(** The labels of a deployment are a dictionary, given here by its
    entries in the order in which it is iterated (the order of
    insertion), each key once.  [dict_getitem] is [labels[label_key]]
    for a key that the dictionary holds. *)
Definition dict_getitem (labels : list (string * string))
    (label_key : string) : string :=
  from_option snd ""
    (List.find (λ kv, bool_decide (kv.1 = label_key)) labels).

Definition _format_labels_for_print (labels : list (string * string))
  : option string :=
  match labels with
  | [] => None
  | _ :: _ =>
      let result :=
        (λ label_key : string,
           label_key +:+ ":" +:+ dict_getitem labels label_key)
          <$> labels.*1 in
      Some (PyMore.join (String "010"%char EmptyString) result)
  end.

(** [echo_docker_api_result].  A line of the Docker API is a dictionary;
    the keys the function looks at are the fields below, [None] for a
    key that is absent.  The generator is modelled by what it yields and
    by how it ends: exhausted, or with an exception. *)
Record progress_detail := mkProgressDetail {
  pd_current : option Z;
  pd_total : option Z
}.

Record error_detail := mkErrorDetail {
  ed_message : option string
}.

Record docker_line := mkDockerLine {
  dl_stream : option string;
  dl_status : option string;
  dl_progressDetail : option progress_detail;
  dl_id : option string;
  dl_errorDetail : option error_detail
}.

Inductive echo_error :=
| EchoBentoMLException (msg : string)
| EchoKeyError (key : string).

(** [sum(cur)] and [sum(total)] over the values of [layers]. *)
Definition sum_layers (layers : gmap string (Z * Z)) : Z * Z :=
  map_fold (λ _ ct acc, (ct.1 + acc.1, ct.2 + acc.2)) (0, 0) layers.

Section Echo.
(** [humanfriendly.format_size] *)
Variable format_size : Z → string.

(** The first [if] of the loop body. *)
Definition echo_stream (line : docker_line) : list string :=
  match dl_stream line with
  | Some s =>
      let cleaned := PyMore.rstrip_char "010"%char s in
      if bool_decide (cleaned ≠ "") then [cleaned] else []
  | None => []
  end.

(** The second [if] of the loop body. *)
Definition echo_progress (line : docker_line) (layers : gmap string (Z * Z))
  : echo_error + (list string * gmap string (Z * Z)) :=
  if bool_decide (dl_status line = Some "Pushing") then
    match dl_progressDetail line with
    | None => inl (EchoKeyError "progressDetail")
    | Some progress =>
        match pd_current progress with
        | None => inl (EchoKeyError "current")
        | Some current =>
            match pd_total progress with
            | None => inl (EchoKeyError "total")
            | Some total =>
                match dl_id line with
                | None => inl (EchoKeyError "id")
                | Some id =>
                    let layers := <[id := (current, total)]> layers in
                    let '(cur, total) := sum_layers layers in
                    inr (["Pushed " +:+ format_size cur +:+ " / "
                            +:+ format_size total],
                         layers)
                end
            end
        end
    end
  else inr ([], layers).

(** The third [if] of the loop body. *)
Definition echo_error_detail (line : docker_line) : option echo_error :=
  match dl_errorDetail line with
  | Some error =>
      match ed_message error with
      | Some message => Some (EchoBentoMLException message)
      | None => Some (EchoKeyError "message")
      end
  | None => None
  end.

Fixpoint echo_loop (docker_generator : list docker_line)
    (layers : gmap string (Z * Z)) : list string * option echo_error :=
  match docker_generator with
  | [] => ([], None)
  | line :: rest =>
      match echo_progress line layers with
      | inl e => (echo_stream line, Some e)
      | inr (pushed, layers) =>
          match echo_error_detail line with
          | Some e => (echo_stream line ++ pushed, Some e)
          | None =>
              let '(more, e) := echo_loop rest layers in
              (echo_stream line ++ pushed ++ more, e)
          end
      end
  end.

Definition echo_docker_api_result (docker_generator : list docker_line)
  : list string * option echo_error :=
  echo_loop docker_generator ∅.
End Echo.

(** ** Vocabulary of the further properties *)

(** *** Text without white space at its ends *)

Definition first_char (s : string) : option ascii :=
  match s with
  | EmptyString => None
  | String c _ => Some c
  end.

Fixpoint last_char (s : string) : option ascii :=
  match s with
  | EmptyString => None
  | String c EmptyString => Some c
  | String _ s' => last_char s'
  end.

(** Neither the first nor the last character of [s] is white space. *)
Definition trimmed (s : string) : bool :=
  from_option (λ c, negb (PyStr.isspace c)) true (first_char s)
  && from_option (λ c, negb (PyStr.isspace c)) true (last_char s).

(** *** Escaped text *)

(** Every character of [s] that is no ASCII letter or digit comes
    right after a backslash that escapes it; every backslash escapes
    the character after it. *)
Fixpoint escaped (s : string) : bool :=
  match s with
  | EmptyString => true
  | String c t =>
      if Ascii.eqb c "\"%char then
        match t with
        | EmptyString => false
        | String d r => negb (PyMore.is_ascii_alnum d) && escaped r
        end
      else PyMore.is_ascii_alnum c && escaped t
  end.

(** The text without its escaping backslashes. *)
Fixpoint unescape (s : string) : string :=
  match s with
  | EmptyString => EmptyString
  | String c t =>
      if Ascii.eqb c "\"%char then
        match t with
        | EmptyString => EmptyString
        | String d r => String d (unescape r)
        end
      else String c (unescape t)
  end.

(** A line the generator can digest: a line with status [Pushing] has
    its progress numbers and its layer id. *)
Definition pushing (line : docker_line) : bool :=
  bool_decide (dl_status line = Some "Pushing").


(** The progress line of a layer, and the text echoed for two totals. *)
Definition progress_of (p : string * (Z * Z)) : docker_line :=
  mkDockerLine None (Some "Pushing")
    (Some (mkProgressDetail (Some p.2.1) (Some p.2.2))) (Some p.1) None.

Definition pushed_text (format_size : Z → string) (cur total : Z) : string :=
  "Pushed " +:+ format_size cur +:+ " / " +:+ format_size total.

Definition sum_list (l : list Z) : Z := foldr Z.add 0 l.

(** ** Further runs in the scripted environment *)

Module MoreRuns.
Import Oracle.

(** The script of a deletion in which the user answers every prompt
    with no. *)
Definition declining : script :=
  {| sc_metadata := λ _, Return demo_metadata;
     sc_validate := λ _, Return tt;
     sc_get := λ req,
       mkGetBentoResponse ok
         (mkBento (get_bento_name req) (get_bento_version req) no_uri
            (mkMetadata (get_bento_name req) (get_bento_version req) ∅));
     sc_add := λ _, mkAddBentoResponse ok local_uri;
     sc_list := λ req,
       mkListBentoResponse ok
         (if bool_decide (list_offset req = 0)
          then [BulkRuns.a1; BulkRuns.a2] else []);
     sc_delete := λ _, mkDeleteBentoResponse ok;
     sc_exists := λ _, false;
     sc_rmtree := λ _, Return tt;
     sc_copytree := λ _ _, Return tt;
     sc_put := λ _ _, Return (mkHttpResponse 200 "");
     sc_confirm := λ _, false |}.

(** The script of an upload whose labels are refused. *)
Definition refusing_labels : script :=
  {| sc_metadata := λ _, Return demo_metadata;
     sc_validate := λ _, Raise (BentoMLException "invalid label");
     sc_get := λ _, mkGetBentoResponse not_found (demo_bento local_uri);
     sc_add := λ _, mkAddBentoResponse ok local_uri;
     sc_list := λ _, mkListBentoResponse ok [];
     sc_delete := λ _, mkDeleteBentoResponse ok;
     sc_exists := λ _, false;
     sc_rmtree := λ _, Return tt;
     sc_copytree := λ _ _, Return tt;
     sc_put := λ _ _, Return (mkHttpResponse 200 "");
     sc_confirm := λ _, true |}.

(** The script of an upload whose Add is refused. *)
Definition refusing_add : script :=
  upload_script not_found (mkAddBentoResponse internal local_uri) false
    (Return (mkHttpResponse 200 "")).

(** A containerize operation that answers every request with OK and the
    image tag [demo:latest]. *)
Definition containerize_ok (req : ContainerizeBentoRequest) (w : unit)
  : ContainerizeBentoResponse * unit :=
  (mkContainerizeBentoResponse ok "demo:latest", w).

(** Lines of a push: a stream line, progress of two layers, a line of
    line breaks only, and an error. *)
Definition stream_line (s : string) : docker_line :=
  mkDockerLine (Some s) None None None None.
Definition empty_progress_line (id : string) : docker_line :=
  mkDockerLine None (Some "Pushing") (Some (mkProgressDetail None None))
    (Some id) None.
Definition error_line (message : string) : docker_line :=
  mkDockerLine None None None None (Some (mkErrorDetail (Some message))).

Definition bytes (n : Z) : string := pretty n +:+ " bytes".

End MoreRuns.

(** A push from a bundle stored on S3. *)

Module PushRuns.
Import Oracle.

(** The local service knows [demo:1.0.0], stored on S3. *)
Definition stored_on_s3 : script :=
  {| sc_metadata := λ _, Return demo_metadata;
     sc_validate := λ _, Return tt;
     sc_get := λ _, mkGetBentoResponse ok (demo_bento s3_uri);
     sc_add := λ _, mkAddBentoResponse ok s3_uri;
     sc_list := λ _, mkListBentoResponse ok [];
     sc_delete := λ _, mkDeleteBentoResponse ok;
     sc_exists := λ _, false;
     sc_rmtree := λ _, Return tt;
     sc_copytree := λ _ _, Return tt;
     sc_put := λ _ _, Return (mkHttpResponse 200 "");
     sc_confirm := λ _, true |}.

End PushRuns.

(** * Properties *)

(** ** Tactics for walking through client code *)

Ltac unfold_client :=
  unfold upload_from_dir, _update_bento_upload_progress, get, list_,
    _delete_bento_bundle, push, download_to_directory,
    bind, ret, raise, lift, log,
    call_GetBento, call_AddBento, call_UpdateBento, call_ListBento,
    call_DangerouslyDeleteBento, call_load_bento_service_metadata,
    call_path_exists, call_rmtree, call_copytree, call_tar_add,
    call_requests_put, call_safe_retrieve, call_confirm in *.

(** One case per path through the code. *)
Ltac explore := repeat (case_match; simplify_eq/=).

Ltac decide_bools :=
  repeat match goal with
    | H : bool_decide _ = true |- _ => apply bool_decide_eq_true in H
    | H : bool_decide _ = false |- _ => apply bool_decide_eq_false in H
    | H : _ || _ = true |- _ => apply orb_true_iff in H as [H|H]
    | H : _ || _ = false |- _ => apply orb_false_iff in H as [? ?]
    | H : ¬ (_ ≠ _) |- _ => apply dec_stable in H
    | u : unit |- _ => destruct u
    end.

Ltac elems :=
  repeat match goal with
    | H : _ ∈ [] |- _ => by apply elem_of_nil in H
    | H : _ ∈ _ :: _ |- _ => apply elem_of_cons in H as [H|H]
    | H : _ ∈ _ ++ _ |- _ => apply elem_of_app in H as [H|H]
    end.

Ltac find_elem :=
  repeat first [apply list_elem_of_here | apply list_elem_of_further].

(** ** String primitives *)

Module PyStrFacts.
Import PyStr.

Lemma split_nonempty sep s : split sep s ≠ [].
Proof. destruct s as [|c s]; simpl; [done|]. repeat case_match; done. Qed.

Lemma split_length sep s : length (split sep s) = S (count sep s).
Proof.
  induction s as [|c s IH]; simpl; [done|].
  destruct (Ascii.eqb c sep); simpl; [by rewrite IH|].
  destruct (split sep s) eqn:E; simpl in *; [done|lia].
Qed.

Lemma split_count_0 sep s : count sep s = 0%nat → split sep s = [s].
Proof.
  induction s as [|c s IH]; simpl; [done|].
  destruct (Ascii.eqb c sep); [done|]. intros H.
  by rewrite IH.
Qed.

Lemma split_count_1 sep s :
  count sep s = 1%nat → split sep s = [before sep s; after sep s].
Proof.
  induction s as [|c s IH]; simpl; [done|].
  destruct (Ascii.eqb c sep); simpl.
  - intros H. rewrite split_count_0 by lia. done.
  - intros H. by rewrite IH.
Qed.

Lemma count_app sep s1 s2 :
  count sep (s1 +:+ s2) = (count sep s1 + count sep s2)%nat.
Proof.
  induction s1 as [|c s1 IH]; simpl; [done|]. rewrite IH. lia.
Qed.

Lemma contains_count sep s : contains sep s = false ↔ count sep s = 0%nat.
Proof.
  induction s as [|c s IH]; simpl; [done|].
  destruct (Ascii.eqb c sep); simpl; [split; [done|lia]|done].
Qed.

Lemma before_app sep s1 s2 :
  count sep s1 = 0%nat → before sep (s1 +:+ String sep s2) = s1.
Proof.
  induction s1 as [|c s1 IH]; simpl.
  - by rewrite Ascii.eqb_refl.
  - destruct (Ascii.eqb c sep); [done|]. intros H. by rewrite IH.
Qed.

Lemma after_app sep s1 s2 :
  count sep s1 = 0%nat → after sep (s1 +:+ String sep s2) = s2.
Proof.
  induction s1 as [|c s1 IH]; simpl.
  - by rewrite Ascii.eqb_refl.
  - destruct (Ascii.eqb c sep); [done|]. intros H. by rewrite IH.
Qed.

(** A reference [name:version] whose parts hold no colon splits back
    into its parts. *)
Lemma split_tag sep name version :
  count sep name = 0%nat → count sep version = 0%nat →
  split sep (name +:+ String sep version) = [name; version].
Proof.
  intros Hn Hv. rewrite split_count_1.
  - by rewrite before_app, after_app.
  - rewrite count_app. simpl. rewrite Ascii.eqb_refl. lia.
Qed.

Lemma contains_tag sep name version :
  contains sep (name +:+ String sep version) = true.
Proof.
  induction name as [|c s IH]; simpl.
  - by rewrite Ascii.eqb_refl.
  - rewrite IH. by destruct (Ascii.eqb c sep).
Qed.

Lemma includes_mid l sub r : includes sub (l +:+ sub +:+ r).
Proof. by exists l, r. Qed.

Lemma app_cons x (a b : string) : String x a +:+ b = String x (a +:+ b).
Proof. reflexivity. Qed.

Lemma app_assoc (a b c : string) : (a +:+ b) +:+ c = a +:+ (b +:+ c).
Proof. induction a as [|x a IH]; [done|]. by rewrite !app_cons, IH. Qed.

Lemma app_nil_r (a : string) : a +:+ "" = a.
Proof. induction a as [|x a IH]; [done|]. by rewrite app_cons, IH. Qed.

End PyStrFacts.

Lemma count_ge_2_split sep s :
  (2 ≤ PyStr.count sep s)%nat →
  ∃ a b c rest, PyStr.split sep s = a :: b :: c :: rest.
Proof.
  intros Hc. pose proof (PyStrFacts.split_length sep s) as Hlen.
  destruct (PyStr.split sep s) as [|a [|b [|c rest]]]; simpl in Hlen;
    try lia. eauto.
Qed.

(** ** [parse_key_value_pairs] *)

Section ParseFacts.
Context {W : Type}.
Import PyStr PyStrFacts.

Lemma unpack2_wrong_length {A} (xs : list A) :
  length xs ≠ 2%nat → ∃ msg, unpack2 xs = Raise (ValueError msg).
Proof.
  destruct xs as [|a [|b [|c xs]]]; simpl; intros H; try done; eauto.
Qed.

Lemma parse_tokens_ok (tokens : list string) :
  Forall (λ t, count "="%char t = 1%nat) tokens →
  ∀ (m : gmap string string) (w : W),
    ∃ m' tr,
      parse_tokens tokens m w = (Return m', tr, w)
      ∧ ∀ k, m' !! k = from_option Some (m !! k) (last_value k tokens).
Proof.
  induction 1 as [|t rest Ht _ IH]; intros m w.
  - exists m, []. done.
  - destruct (IH (<[token_key t := token_value t]> m) w)
      as (m' & tr & Hrun & Hm').
    cbn [parse_tokens]. unfold bind at 1, lift.
    rewrite (split_count_1 _ _ Ht). cbn [unpack2 fst snd].
    fold (token_key t) (token_value t).
    unfold bind at 1.
    destruct (decide (is_Some (m !! token_key t)));
      unfold log, ret; rewrite Hrun;
      eexists m', _; (split; [reflexivity|]);
      intros k; rewrite Hm'; cbn [last_value];
      destruct (last_value k rest); cbn; try done;
      (destruct (decide (token_key t = k)) as [->|Hne]; cbn;
       [by rewrite lookup_insert_eq|by rewrite lookup_insert_ne]).
Qed.

Lemma parse_tokens_bad (tokens : list string) :
  Exists (λ t, count "="%char t ≠ 1%nat) tokens →
  ∀ (m : gmap string string) (w : W),
    ∃ msg tr, parse_tokens tokens m w = (Raise (ValueError msg), tr, w).
Proof.
  induction tokens as [|t rest IH]; intros Hex m w.
  - by apply Exists_nil in Hex.
  - cbn [parse_tokens]. unfold bind at 1, lift.
    destruct (decide (count "="%char t = 1%nat)) as [Ht|Ht].
    + apply Exists_cons in Hex as [Hex|Hex]; [done|].
      rewrite (split_count_1 _ _ Ht). cbn [unpack2 fst snd].
      destruct (IH Hex
                  (<[strip (before "="%char t) :=
                       strip (after "="%char t)]> m) w)
        as (msg & tr & Hrun).
      unfold bind at 1.
      destruct (decide (is_Some (m !! strip (before "="%char t))));
        unfold log, ret; rewrite Hrun; eauto.
    + destruct (unpack2_wrong_length (split "="%char t)) as [msg Hmsg].
      { rewrite split_length. lia. }
      rewrite Hmsg. eauto.
Qed.
End ParseFacts.

(** C5 (as the code has it).  A non-empty argument is cut at its commas.
    When every token holds exactly one [=], the parse succeeds and maps
    each key (the stripped text before the [=]) to the stripped text after
    the [=] of the last token with that key.  When some token holds no [=]
    or more than one, the parse raises [ValueError]: the token is cut at
    every [=], not at the first one only, and must fall into two pieces. *)
Theorem parse_key_value_pairs_one_delimiter {W : Type} (s : string) (w : W) :
  s ≠ "" →
  (Forall (λ t, PyStr.count "="%char t = 1%nat) (PyStr.split ","%char s) →
   ∃ m tr,
     parse_key_value_pairs (Some s) w = (Return m, tr, w)
     ∧ ∀ k, m !! k = last_value k (PyStr.split ","%char s))
  ∧ (Exists (λ t, PyStr.count "="%char t ≠ 1%nat) (PyStr.split ","%char s) →
     ∃ msg tr,
       parse_key_value_pairs (Some s) w = (Raise (ValueError msg), tr, w)).
Proof.
  intros Hs. destruct s as [|c s]; [done|].
  unfold parse_key_value_pairs. split.
  - intros Hall.
    destruct (parse_tokens_ok _ Hall ∅ w) as (m & tr & Hrun & Hm).
    exists m, tr. split; [done|]. intros k. rewrite Hm.
    rewrite lookup_empty. by destruct (last_value k _).
  - intros Hex. by apply parse_tokens_bad.
Qed.

Lemma parse_key_value_pairs_one_delimiter_witness :
  (∃ m tr,
     parse_key_value_pairs (Some "a=1, b = 2,a=3") tt = (Return m, tr, tt)
     ∧ ∀ k, m !! k
            = last_value k (PyStr.split ","%char "a=1, b = 2,a=3"))
  ∧ ∃ msg tr,
      parse_key_value_pairs (Some "a=1,b") tt
      = (Raise (ValueError msg), tr, tt).
Proof.
  split.
  - apply (parse_key_value_pairs_one_delimiter "a=1, b = 2,a=3" tt);
      [done|]. vm_compute. repeat constructor.
  - apply (parse_key_value_pairs_one_delimiter "a=1,b" tt); [done|].
    vm_compute. apply Exists_cons_tl, Exists_cons_hd. done.
Defined.

(** C5, refuted as stated: the value of the token [k=a=b] holds an [=],
    and the parse does not succeed; it raises [ValueError]. *)
Lemma parse_key_value_pairs_value_with_eq :
  parse_key_value_pairs (Some "k=a=b") tt
  = (Raise (ValueError "too many values to unpack (expected 2)"), [], tt)
  ∧ ¬ ∃ (m : gmap string string) tr,
        parse_key_value_pairs (Some "k=a=b") tt = (Return m, tr, tt)
        ∧ m !! "k" = Some "a=b".
Proof.
  split; [reflexivity|]. intros (m & tr & H & _). discriminate H.
Qed.

(** Duplicate keys: the last occurrence wins, with a warning. *)
Example parse_key_value_pairs_duplicate :
  parse_key_value_pairs (Some "a=1, b = 2,a=3") tt
  = (Return (<["a" := "3"]> (<["b" := "2"]> (<["a" := "1"]> ∅))),
     [Ev_log WARNING "duplicated key 'a' found string map parameter"], tt).
Proof. reflexivity. Qed.

(** The white space that [str.strip] removes includes the no-break
    space: the second token names the key [a] again. *)
Example parse_key_value_pairs_no_break_space :
  parse_key_value_pairs
    (Some ("a=1," +:+ String "160"%char "a=2")) tt
  = (Return {["a" := "2"]},
     [Ev_log WARNING "duplicated key 'a' found string map parameter"], tt).
Proof. vm_compute. reflexivity. Qed.

(** ** [upload_from_dir] *)

Lemma error_saving_msg_includes kind r :
  PyStr.includes (pretty (http_status_code r)) (error_saving_msg kind r)
  ∧ PyStr.includes (http_text r) (error_saving_msg kind r).
Proof.
  unfold error_saving_msg. split.
  - exists ("Error saving BentoService bundle to " +:+ kind +:+ "."),
      (": " +:+ http_text r).
    by rewrite !PyStrFacts.app_assoc.
  - exists ("Error saving BentoService bundle to " +:+ kind +:+ "."
              +:+ pretty (http_status_code r) +:+ ": "), "".
    by rewrite PyStrFacts.app_nil_r, !PyStrFacts.app_assoc.
Qed.

Section UploadFacts.
Context {W : Type} (lib : Library W) (svc : YataiService W).

(** What the labels of a call leave of the metadata read. *)
Lemma upload_labels_run labels md0 (w0 : W) :
  labels_accepted lib labels →
  match labels with
  | Some l =>
      if bool_decide (l ≠ ∅) then
        (lift (_validate_labels lib l) ;;;
         ret (mkMetadata (md_name md0) (md_version md0)
                (l ∪ md_labels md0)))
      else ret md0
  | None => ret md0
  end w0
  = (Return (merged_metadata md0 labels), [], w0).
Proof.
  intros Hacc. unfold merged_metadata. destruct labels as [l|]; [|done].
  case_bool_decide as Hl; [|done].
  unfold bind, lift, ret. by rewrite (Hacc l eq_refl Hl).
Qed.


(** C7 (as the code has it).  An upload whose Add is answered OK with a
    LOCAL destination asks whether the destination exists and removes
    it if so, copies the bundle directory to it, sends the status DONE,
    logs, and returns the destination reported by the authority; the
    world is the one in which the directory was removed and copied and
    the status updated.  That is so when neither the removal nor the
    copy raises.  When one of them raises, the error leaves the upload
    at once: nothing is done after it, and no status is sent. *)
Theorem upload_from_dir_local
    path labels w md0 w0 gresp w1 aresp w2 dst_exists w3
    removed w4 copied w5 :
  let md := merged_metadata md0 labels in
  let dst := uri_uri (add_uri aresp) in
  load_bento_service_metadata lib path w = (Return md0, w0) →
  labels_accepted lib labels →
  GetBento svc (upload_get md) w0 = (gresp, w1) →
  status_code (get_status gresp) = NOT_FOUND →
  AddBento svc (upload_add md) w1 = (aresp, w2) →
  status_code (add_status aresp) = OK →
  uri_type (add_uri aresp) = LOCAL →
  os_path_exists lib dst w2 = (dst_exists, w3) →
  (if dst_exists then shutil_rmtree lib dst w3 else (Return tt, w3))
  = (removed, w4) →
  shutil_copytree lib path dst w4 = (copied, w5) →
  let asked :=
    [Ev_load_bento_service_metadata path (Return md0);
     Ev_GetBento (upload_get md) gresp;
     Ev_AddBento (upload_add md) aresp;
     Ev_path_exists dst dst_exists]
    ++ (if dst_exists then [Ev_rmtree dst removed] else []) in
  upload_from_dir lib svc path labels w
  = match removed, copied with
    | Raise e, _ => (Raise e, asked, w4)
    | Return _, Raise e =>
        (Raise e, asked ++ [Ev_copytree path dst (Raise e)], w5)
    | Return _, Return _ =>
        (Return dst,
         asked ++ [Ev_copytree path dst (Return tt);
                   Ev_status md DONE None;
                   Ev_log INFO (saved_to_msg md dst)],
         UpdateBento svc (status_request md DONE None) w5)
    end.
Proof.
  intros md dst Hload Hacc Hget Hnf Hadd Hok Hlocal Hex Hrm Hcp asked.
  subst asked.
  unfold upload_from_dir. unfold bind at 1.
  unfold call_load_bento_service_metadata. rewrite Hload.
  unfold bind at 1. rewrite (upload_labels_run labels md0 w0 Hacc).
  fold md. unfold bind at 1, call_GetBento.
  fold (upload_get md). rewrite Hget.
  rewrite bool_decide_eq_false_2 by (rewrite Hnf; done).
  rewrite bool_decide_eq_false_2 by (intros H; by apply H).
  unfold bind at 1, call_AddBento. fold (upload_add md). rewrite Hadd.
  rewrite bool_decide_eq_false_2 by (intros H; by apply H).
  rewrite bool_decide_eq_true_2 by done.
  fold dst. unfold bind at 1, call_path_exists. rewrite Hex.
  unfold bind at 1.
  destruct dst_exists.
  - unfold call_rmtree. rewrite Hrm.
    destruct removed as [[]|e]; [|done].
    unfold bind at 1, call_copytree. rewrite Hcp.
    destruct copied as [[]|e]; [|done].
    unfold bind, _update_bento_upload_progress, call_UpdateBento, log, ret.
    reflexivity.
  - unfold ret at 1. injection Hrm as <- <-.
    unfold bind at 1, call_copytree. rewrite Hcp.
    destruct copied as [[]|e]; [|done].
    unfold bind, _update_bento_upload_progress, call_UpdateBento, log, ret.
    reflexivity.
Qed.
End UploadFacts.

Section UploadStatusFacts.
Context {W : Type} (lib : Library W) (svc : YataiService W).

(** C6 (as the code has it).  Once the PUT to the presigned URL of a
    remote upload has answered, what follows is decided by comparing the
    HTTP status with 200.  Any other status, the other 2xx ones
    included, makes the client send the status ERROR and then raise an
    error whose message holds the HTTP status and the body of the
    answer; the update is the last event of the call.  Status 200 makes
    it send the status DONE, log, and return the URI reported by the
    authority. *)
Theorem upload_from_dir_put_answer path labels w out tr w' :
  upload_from_dir lib svc path labels w = (out, tr, w') →
  ∀ url data r,
    Ev_requests_put url data (Return r) ∈ tr →
    ∃ md0 greq gresp areq aresp,
      let md := merged_metadata md0 labels in
      let sent :=
        [Ev_load_bento_service_metadata path (Return md0);
         Ev_GetBento greq gresp;
         Ev_AddBento areq aresp;
         Ev_status md UPLOADING (Some 0);
         Ev_tar_add path (md_name md) (Return data);
         Ev_requests_put url data (Return r)] in
      (uri_type (add_uri aresp) = S3
         ∧ url = s3_presigned_url (add_uri aresp)
       ∨ uri_type (add_uri aresp) = GCS
         ∧ url = gcs_presigned_url (add_uri aresp))
      ∧ (http_status_code r ≠ 200 →
         tr = sent ++ [Ev_status md ERROR None]
         ∧ ∃ kind,
             out = Raise (BentoMLException (error_saving_msg kind r))
             ∧ PyStr.includes (pretty (http_status_code r))
                 (error_saving_msg kind r)
             ∧ PyStr.includes (http_text r) (error_saving_msg kind r))
      ∧ (http_status_code r = 200 →
         ∃ msg,
           tr = sent ++ [Ev_status md DONE None; Ev_log INFO msg]
           ∧ out = Return (uri_uri (add_uri aresp))).
Proof.
  intros Hrun url data r Hin.
  unfold merged_metadata. unfold_client.
  explore; simpl in Hin; elems; simplify_eq/=;
    decide_bools; try done; try congruence.
  all: eexists _, _, _, _, _;
    (split; [by eauto|]);
    (split;
     [intros Hcode; try done;
      (split; [reflexivity|]);
      eexists; (split; [reflexivity|]);
      apply error_saving_msg_includes
     |intros Hcode; try done; eexists; split; reflexivity]).
Qed.

(** C2 (as the code has it).  An upload that returns has sent DONE as
    its last status and never ERROR.  An upload whose PUT was answered
    with a status other than 200 raises, and the status ERROR is the
    last thing it sent.  An upload that raises for any other reason
    (the bundle cannot be read, the labels are refused, Get or Add is
    refused, the storage kind is unknown, a library call raises) has
    sent neither DONE nor ERROR. *)
Theorem upload_from_dir_terminal_status path labels w out tr w' :
  upload_from_dir lib svc path labels w = (out, tr, w') →
  (is_Return out = true →
   last (status_updates tr) = Some DONE ∧ (ERROR ∉ status_updates tr))
  ∧ (∀ url data r,
       Ev_requests_put url data (Return r) ∈ tr →
       http_status_code r ≠ 200 →
       is_Return out = false
       ∧ last (status_updates tr) = Some ERROR
       ∧ ∃ req, last tr = Some (Ev_UpdateBento req))
  ∧ (is_Return out = false →
     (∀ url data r,
        Ev_requests_put url data (Return r) ∈ tr →
        http_status_code r = 200) →
     (DONE ∉ status_updates tr) ∧ (ERROR ∉ status_updates tr)).
Proof.
  intros Hrun. split; [|split].
  - intros Hret. unfold_client.
    explore; decide_bools; try done;
      (split; [reflexivity|]);
      intros Hin; elems; done.
  - intros url data r Hin Hcode. unfold_client.
    explore; simpl in Hin; elems; simplify_eq/=;
      decide_bools; try done; eauto.
  - intros Hret Hput. unfold_client.
    explore; decide_bools; try done;
      try (split; intros Hin; elems; done).
    all: exfalso;
      match goal with
      | H : http_status_code _ ≠ 200 |- _ => apply H
      end; eapply Hput; find_elem.
Qed.
End UploadStatusFacts.

(** ** Uploads in the scripted environment *)

Lemma run_eta {A B C} (r : A * B * C) : r = (r.1.1, r.1.2, r.2).
Proof. by destruct r as [[??]?]. Qed.


Lemma upload_from_dir_local_witness :
  UploadRuns.upload UploadRuns.fresh_local
  = (Return "/repo/demo/1.0.0",
     [Ev_load_bento_service_metadata "/tmp/demo"
        (Return Oracle.demo_metadata);
      Ev_GetBento UploadRuns.demo_get
        (mkGetBentoResponse Oracle.not_found
           (Oracle.demo_bento Oracle.local_uri));
      Ev_AddBento UploadRuns.demo_add
        (mkAddBentoResponse Oracle.ok Oracle.local_uri);
      Ev_path_exists "/repo/demo/1.0.0" true;
      Ev_rmtree "/repo/demo/1.0.0" (Return tt);
      Ev_copytree "/tmp/demo" "/repo/demo/1.0.0" (Return tt);
      Ev_status Oracle.demo_metadata DONE None;
      Ev_log INFO
        "BentoService bundle 'demo:1.0.0' saved to: /repo/demo/1.0.0"],
     tt).
Proof.
  apply (upload_from_dir_local
           (Oracle.library UploadRuns.fresh_local)
           (Oracle.service UploadRuns.fresh_local) "/tmp/demo" None tt
           Oracle.demo_metadata tt
           (mkGetBentoResponse Oracle.not_found
              (Oracle.demo_bento Oracle.local_uri)) tt
           (mkAddBentoResponse Oracle.ok Oracle.local_uri) tt
           true tt (Return tt) tt (Return tt) tt).
  - reflexivity.
  - intros l Hl. discriminate Hl.
  - reflexivity.
  - reflexivity.
  - reflexivity.
  - reflexivity.
  - reflexivity.
  - reflexivity.
  - reflexivity.
  - reflexivity.
Defined.

Lemma upload_from_dir_put_answer_witness :
  let r := UploadRuns.upload (UploadRuns.fresh_s3 403 "denied") in
  last r.1.2 = Some (Ev_status Oracle.demo_metadata ERROR None)
  ∧ r.1.1 = Raise (BentoMLException
                     "Error saving BentoService bundle to S3.403: denied").
Proof.
  intros r.
  destruct (upload_from_dir_put_answer
              (Oracle.library (UploadRuns.fresh_s3 403 "denied"))
              (Oracle.service (UploadRuns.fresh_s3 403 "denied"))
              "/tmp/demo" None tt _ _ _ (run_eta r)
              "https://s3/put?sig" "tar:demo" (mkHttpResponse 403 "denied"))
    as (md0 & greq & gresp & areq & aresp & _ & Hbad & _).
  - vm_compute. find_elem.
  - split; reflexivity.
Defined.

Lemma upload_from_dir_terminal_status_witness :
  let r := UploadRuns.upload (UploadRuns.fresh_s3 403 "denied") in
  is_Return r.1.1 = false ∧ last (status_updates r.1.2) = Some ERROR.
Proof.
  intros r.
  destruct (upload_from_dir_terminal_status
              (Oracle.library (UploadRuns.fresh_s3 403 "denied"))
              (Oracle.service (UploadRuns.fresh_s3 403 "denied"))
              "/tmp/demo" None tt _ _ _ (run_eta r))
    as (_ & Hput & _).
  destruct (Hput "https://s3/put?sig" "tar:demo"
              (mkHttpResponse 403 "denied"))
    as (Hout & Hlast & _).
  - vm_compute. find_elem.
  - discriminate.
  - by split.
Defined.

(** C2, refuted as stated: Add has accepted the reference, the storage
    kind of the answer is none the client knows, and the upload raises
    without having sent any status update. *)
Lemma upload_unknown_storage_sends_no_status :
  let r := UploadRuns.upload UploadRuns.fresh_unknown in
  r = (Raise (BentoMLException
                "Error saving Bento to target repository, URI type 0 at /repo/x not supported"),
       [Ev_load_bento_service_metadata "/tmp/demo"
          (Return Oracle.demo_metadata);
        Ev_GetBento UploadRuns.demo_get
          (mkGetBentoResponse Oracle.not_found
             (Oracle.demo_bento UploadRuns.odd_uri));
        Ev_AddBento UploadRuns.demo_add
          (mkAddBentoResponse Oracle.ok UploadRuns.odd_uri)],
       tt)
  ∧ status_updates r.1.2 = []
  ∧ ¬ ∃ req, Ev_UpdateBento req ∈ r.1.2
             ∧ us_status (upd_upload_status req) = ERROR.
Proof.
  intros r. split; [reflexivity|]. split; [reflexivity|].
  intros (req & Hin & _).
  remember r.1.2 as tr eqn:Htr. vm_compute in Htr. subst tr.
  elems; discriminate.
Qed.

(** Another path of the same kind: the copy to the local destination
    raises after Add has accepted the reference; no status is sent. *)
Example upload_copy_failure_sends_no_status :
  let r := UploadRuns.upload UploadRuns.fresh_local_copy_fails in
  r.1.1 = Raise (LibraryError "OSError: No space left")
  ∧ last r.1.2
    = Some (Ev_copytree "/tmp/demo" "/repo/demo/1.0.0"
              (Raise (LibraryError "OSError: No space left")))
  ∧ status_updates r.1.2 = [].
Proof. repeat split. Qed.

(** C7, refuted as stated: the upload is dispatched to a Local backend
    and the copy raises; the status is not set to DONE, or to anything,
    and nothing is returned to the caller. *)
Lemma upload_local_copy_failure_sets_no_status :
  let r := UploadRuns.upload UploadRuns.fresh_local_copy_fails in
  Ev_AddBento UploadRuns.demo_add
    (mkAddBentoResponse Oracle.ok Oracle.local_uri) ∈ r.1.2
  ∧ last r.1.2
    = Some (Ev_copytree "/tmp/demo" "/repo/demo/1.0.0"
              (Raise (LibraryError "OSError: No space left")))
  ∧ status_updates r.1.2 = []
  ∧ r.1.1 = Raise (LibraryError "OSError: No space left")
  ∧ ¬ (DONE ∈ status_updates r.1.2
       ∧ r.1.1 = Return "/repo/demo/1.0.0").
Proof.
  intros r. split; [vm_compute; find_elem|].
  split; [reflexivity|]. split; [reflexivity|]. split; [reflexivity|].
  intros [_ Hout]. discriminate Hout.
Qed.

(** C6, refuted as stated: the PUT is answered with 204, a 2xx status;
    the client sends the status ERROR and raises. *)
Lemma upload_put_204_is_an_error :
  let r := UploadRuns.upload (UploadRuns.fresh_s3 204 "") in
  (200 ≤ 204 < 300)
  ∧ Ev_requests_put "https://s3/put?sig" "tar:demo"
      (Return (mkHttpResponse 204 "")) ∈ r.1.2
  ∧ last (status_updates r.1.2) = Some ERROR
  ∧ r.1.1 = Raise (BentoMLException
                     "Error saving BentoService bundle to S3.204: ").
Proof.
  intros r. split; [lia|]. split; [vm_compute; find_elem|].
  split; reflexivity.
Qed.

(** ** Running sequences of calls *)

Section RunFacts.
Context {W : Type}.

Lemma bind_run {A B} (m : M (W := W) A) (k : A → M B) w out tr w' :
  bind m k w = (out, tr, w') →
  (∃ a t1 w1 t2,
     m w = (Return a, t1, w1) ∧ k a w1 = (out, t2, w') ∧ tr = t1 ++ t2)
  ∨ (∃ e, m w = (Raise e, tr, w') ∧ out = Raise e).
Proof.
  unfold bind. destruct (m w) as [[[a|e] t1] w1].
  - destruct (k a w1) as [[o t2] w2] eqn:Hk. intros [= <- <- <-].
    left. by exists a, t1, w1, t2.
  - intros [= <- <- <-]. right. by exists e.
Qed.

Lemma bind_Return {A B} (m : M (W := W) A) (k : A → M B) w a t1 w1 :
  m w = (Return a, t1, w1) →
  bind m k w = (let '(o, t2, w2) := k a w1 in (o, t1 ++ t2, w2)).
Proof. unfold bind. by intros ->. Qed.

Lemma bind_Raise {A B} (m : M (W := W) A) (k : A → M B) w e t1 w1 :
  m w = (Raise e, t1, w1) → bind m k w = (Raise e, t1, w1).
Proof. unfold bind. by intros ->. Qed.
End RunFacts.

(** ** [get] *)

Section GetFacts.
Context {W : Type} (lib : Library W) (svc : YataiService W).

(** [get] on the tag of a well-formed reference sends one Get for that
    reference and returns the bundle of an OK answer. *)
Lemma get_tag (b : Bento) w :
  wf_ref b →
  get svc (bento_tag_of b) w
  = let '(resp, w') := GetBento svc (ref_request b) w in
    (if bool_decide (status_code (get_status resp) ≠ OK)
     then Raise (BentoMLException
                   (not_found_msg (bento_name b) (bento_version b)
                      (get_status resp)))
     else Return (get_bento resp),
     [Ev_GetBento (ref_request b) resp], w').
Proof.
  intros [Hn Hv]. unfold get.
  change (bento_tag_of b)
    with (bento_name b +:+ String ":"%char (bento_version b)).
  rewrite PyStrFacts.contains_tag. cbn [negb].
  unfold bind at 1, lift.
  rewrite (PyStrFacts.split_tag _ _ _ Hn Hv). cbn [unpack2 fst snd].
  unfold bind, call_GetBento, ref_request, raise, ret.
  destruct (GetBento svc _ w) as [resp w']. cbn.
  by destruct (bool_decide _).
Qed.

Lemma upload_from_dir_starts_with_load path labels w :
  ∃ r rest,
    (upload_from_dir lib svc path labels w).1.2
    = Ev_load_bento_service_metadata path r :: rest.
Proof.
  unfold upload_from_dir. unfold bind at 1.
  unfold call_load_bento_service_metadata.
  destruct (load_bento_service_metadata lib path w) as [[md|e] w1].
  - match goal with
    | |- context [match ?k w1 with _ => _ end] =>
        destruct (k w1) as [[o t2] w2]
    end.
    cbn. eauto.
  - cbn. eauto.
Qed.
End GetFacts.

(** ** Where a bundle is fetched from *)

Lemma truthy_spec s : truthy s = true ↔ s ≠ "".
Proof. by destruct s. Qed.

Lemma prefers_presigned_chain u :
  prefers_presigned u
    (if truthy (s3_presigned_url u) then s3_presigned_url u
     else if truthy (gcs_presigned_url u) then gcs_presigned_url u
     else uri_uri u).
Proof.
  unfold prefers_presigned.
  destruct (s3_presigned_url u), (gcs_presigned_url u); cbn; done.
Qed.

(** C8.  [download_to_directory] retrieves from, and [push] uploads from,
    the location chosen for the URI record of the bundle: the S3
    presigned URL if it is not empty, else the GCS presigned URL if it is
    not empty, else the direct URI.  For [download_to_directory] the
    bundle is its argument, and the call is the retrieval from that
    location.  [push] asks the local service for the reference; when
    the answer is OK, the push is that Get followed by the upload from
    the location chosen for the bundle of the answer, which is the
    directory the upload reads first. *)
Theorem storage_location_prefers_presigned {W : Type}
    (lib : Library W) (svc : YataiService W) :
  (∀ bento_pb target w,
     ∃ p,
       prefers_presigned (bento_uri bento_pb) p
       ∧ download_to_directory lib bento_pb target w
         = (let '(r, w') := safe_retrieve lib p target w in
            (r, [Ev_safe_retrieve p target r], w')))
  ∧ (∀ name version with_labels w gresp w1,
       PyStr.count ":"%char name = 0%nat →
       PyStr.count ":"%char version = 0%nat →
       GetBento (get_yatai_client lib) (mkGetBentoRequest name version) w
       = (gresp, w1) →
       status_code (get_status gresp) = OK →
       ∃ p,
         prefers_presigned (bento_uri (get_bento gresp)) p
         ∧ push lib svc (name +:+ ":" +:+ version) with_labels w
           = (let '(o, t, w') :=
                upload_from_dir lib svc p
                  (push_labels with_labels (get_bento gresp)) w1 in
              (o, Ev_GetBento (mkGetBentoRequest name version) gresp :: t,
               w'))
         ∧ ∃ r rest,
             (push lib svc (name +:+ ":" +:+ version) with_labels w).1.2
             = Ev_GetBento (mkGetBentoRequest name version) gresp
                 :: Ev_load_bento_service_metadata p r :: rest).
Proof.
  split.
  - intros bento_pb target w. eexists. split; [apply prefers_presigned_chain|].
    reflexivity.
  - intros name version with_labels w gresp w1 Hn Hv Hget Hok.
    eexists. split; [apply prefers_presigned_chain|].
    assert (push lib svc (name +:+ ":" +:+ version) with_labels w
            = (let '(o, t, w') :=
                 upload_from_dir lib svc
                   (if truthy (s3_presigned_url (bento_uri (get_bento gresp)))
                    then s3_presigned_url (bento_uri (get_bento gresp))
                    else if truthy
                              (gcs_presigned_url (bento_uri (get_bento gresp)))
                    then gcs_presigned_url (bento_uri (get_bento gresp))
                    else uri_uri (bento_uri (get_bento gresp)))
                   (push_labels with_labels (get_bento gresp)) w1 in
               (o, Ev_GetBento (mkGetBentoRequest name version) gresp :: t,
                w'))) as Hpush.
    { unfold push. unfold bind at 1.
      pose proof (get_tag (get_yatai_client lib)
                    (mkBento name version Oracle.no_uri Oracle.demo_metadata)
                    w (conj Hn Hv)) as Hg.
      unfold bento_tag_of, ref_request in Hg. cbn [bento_name bento_version] in Hg.
      rewrite Hg, Hget.
      rewrite bool_decide_eq_false_2 by (intros H; by apply H).
      unfold push_labels.
      by destruct (upload_from_dir lib svc _ _ w1) as [[o t] w2]. }
    split; [exact Hpush|].
    rewrite Hpush.
    match goal with
    | |- context [upload_from_dir lib svc ?p ?l w1] =>
        destruct (upload_from_dir_starts_with_load lib svc p l w1)
          as (r & rest & Hup);
        destruct (upload_from_dir lib svc p l w1) as [[o t] w2]
    end.
    cbn in Hup |- *. subst t. eauto.
Qed.

Lemma storage_location_prefers_presigned_witness :
  push (Oracle.library PushRuns.stored_on_s3)
    (Oracle.service PushRuns.stored_on_s3) "demo:1.0.0" true tt
  = (Raise (BentoMLException (already_registered_msg "demo" "1.0.0")),
     [Ev_GetBento UploadRuns.demo_get
        (mkGetBentoResponse Oracle.ok (Oracle.demo_bento Oracle.s3_uri));
      Ev_load_bento_service_metadata "https://s3/put?sig"
        (Return Oracle.demo_metadata);
      Ev_GetBento UploadRuns.demo_get
        (mkGetBentoResponse Oracle.ok (Oracle.demo_bento Oracle.s3_uri))],
     tt)
  ∧ prefers_presigned Oracle.s3_uri "https://s3/put?sig".
Proof.
  destruct (storage_location_prefers_presigned
              (Oracle.library PushRuns.stored_on_s3)
              (Oracle.service PushRuns.stored_on_s3)) as [_ Hpush].
  destruct (Hpush "demo" "1.0.0" true tt
              (mkGetBentoResponse Oracle.ok (Oracle.demo_bento Oracle.s3_uri))
              tt eq_refl eq_refl eq_refl eq_refl)
    as (p & Hp & Hrun & _).
  assert (p = "https://s3/put?sig") as ->.
  { destruct Hp as (Hs3 & _). apply Hs3. discriminate. }
  split; [|exact Hp]. etransitivity; [exact Hrun|reflexivity].
Defined.

(** ** Bulk deletion *)

(** *** Traces of sequences of calls *)

Lemma list_events_app t1 t2 :
  list_events (t1 ++ t2) = list_events t1 ++ list_events t2.
Proof. apply omap_app. Qed.

Lemma get_events_app t1 t2 :
  get_events (t1 ++ t2) = get_events t1 ++ get_events t2.
Proof. apply omap_app. Qed.

Lemma delete_events_app t1 t2 :
  delete_events (t1 ++ t2) = delete_events t1 ++ delete_events t2.
Proof. apply omap_app. Qed.

Lemma error_logs_app t1 t2 :
  error_logs (t1 ++ t2) = error_logs t1 ++ error_logs t2.
Proof. apply omap_app. Qed.


Section BulkDelete.
Context {W : Type} (lib : Library W) (svc : YataiService W).

Lemma list_run bento_name labels offset w :
  list_ lib svc bento_name (Some offset) (Some delete_list_limit) labels
    None None w
  = match selectors_of lib labels with
    | Return sel =>
        let '(r, w1) :=
          ListBento svc (page_request bento_name sel offset) w in
        (if bool_decide (status_code (list_status r) ≠ OK)
         then Raise (BentoMLException (list_error_msg (list_status r)))
         else Return (list_bentos r),
         [Ev_ListBento (page_request bento_name sel offset) r], w1)
    | Raise e => (Raise e, [], w)
    end.
Proof.
  unfold list_, selectors_of, page_request, bind, lift, ret, raise,
    call_ListBento.
  destruct labels as [l|]; cbn.
  - destruct (generate_gprc_labels_selector lib l) as [sel|e]; cbn;
      [|done].
    destruct (ListBento svc _ w) as [r w1]. cbn.
    by destruct (bool_decide _).
  - destruct (ListBento svc _ w) as [r w1]. cbn.
    by destruct (bool_decide _).
Qed.

Lemma list_run_Return bento_name labels sel offset w page t1 w1 :
  list_ lib svc bento_name (Some offset) (Some delete_list_limit) labels
    None None w = (Return page, t1, w1) →
  selectors_of lib labels = Return sel →
  ∃ r,
    ListBento svc (page_request bento_name sel offset) w = (r, w1)
    ∧ t1 = [Ev_ListBento (page_request bento_name sel offset) r]
    ∧ list_bentos r = page
    ∧ status_code (list_status r) = OK.
Proof.
  rewrite list_run. intros Hrun Hsel. rewrite Hsel in Hrun.
  destruct (ListBento svc _ w) as [r w0].
  case_bool_decide as Hst; simplify_eq.
  exists r. split_and!; try done.
Qed.

Lemma list_run_Raise bento_name labels sel offset w e t1 w1 :
  list_ lib svc bento_name (Some offset) (Some delete_list_limit) labels
    None None w = (Raise e, t1, w1) →
  selectors_of lib labels = Return sel →
  ∃ r,
    ListBento svc (page_request bento_name sel offset) w = (r, w1)
    ∧ t1 = [Ev_ListBento (page_request bento_name sel offset) r]
    ∧ status_code (list_status r) ≠ OK.
Proof.
  rewrite list_run. intros Hrun Hsel. rewrite Hsel in Hrun.
  destruct (ListBento svc _ w) as [r w0].
  case_bool_decide as Hst; simplify_eq.
  by exists r.
Qed.

(** Deleting one bundle of a page, without confirmation. *)
Lemma delete_bundle_run (b : Bento) w :
  wf_ref b →
  _delete_bento_bundle lib svc (bento_tag_of b) false w
  = let '(g, w1) := GetBento svc (ref_request b) w in
    if bool_decide (status_code (get_status g) ≠ OK) then
      (Raise (BentoMLException
                (not_found_msg (bento_name b) (bento_version b)
                   (get_status g))),
       [Ev_GetBento (ref_request b) g], w1)
    else
      let q :=
        mkDeleteBentoRequest (bento_name (get_bento g))
          (bento_version (get_bento g)) in
      let '(d, w2) := DangerouslyDeleteBento svc q w1 in
      (Return tt,
       [Ev_GetBento (ref_request b) g;
        Ev_DangerouslyDeleteBento q d;
        if delete_failed (q, d)
        then Ev_log LOG_ERROR (failure_line (q, d))
        else Ev_log INFO (deleted_msg (get_bento g))],
       w2).
Proof.
  intros Hwf. unfold _delete_bento_bundle. unfold bind at 1.
  rewrite (get_tag svc b w Hwf).
  destruct (GetBento svc (ref_request b) w) as [g w1].
  destruct (bool_decide (status_code (get_status g) ≠ OK)); [done|].
  unfold bind, ret, call_DangerouslyDeleteBento, log. cbn.
  destruct (DangerouslyDeleteBento svc _ w1) as [d w2]. cbn.
  unfold delete_failed. cbn.
  by destruct (bool_decide (status_code (del_status d) ≠ OK)).
Qed.

(** A page is worked through to its end when every Get is answered OK,
    whatever the answers to the deletions. *)
Lemma delete_page_run (page : list Bento) :
  Forall wf_ref page →
  ∀ w out tr w',
    delete_page lib svc page false w = (out, tr, w') →
    (∀ qr, qr ∈ get_events tr → status_code (get_status qr.2) = OK) →
    out = Return tt
    ∧ list_events tr = []
    ∧ (get_events tr).*1 = ref_request <$> page
    ∧ length (delete_events tr) = length page
    ∧ error_logs tr
      = failure_line <$> filter (λ qr, delete_failed qr) (delete_events tr).
Proof.
  induction 1 as [|b page Hb _ IH]; intros w out tr w' Hrun Hget.
  - cbn in Hrun. unfold ret in Hrun. by simplify_eq.
  - cbn [delete_page] in Hrun.
    pose proof (delete_bundle_run b w Hb) as Hb1.
    destruct (GetBento svc (ref_request b) w) as [g w0].
    destruct (bool_decide (status_code (get_status g) ≠ OK)) eqn:Hg.
    + rewrite (bind_Raise _ _ _ _ _ _ Hb1) in Hrun. simplify_eq.
      exfalso. apply bool_decide_eq_true in Hg. apply Hg.
      apply (Hget (ref_request b, g)). by left.
    + cbn zeta in Hb1.
      destruct (DangerouslyDeleteBento svc _ w0) as [d w2].
      rewrite (bind_Return _ _ _ _ _ _ Hb1) in Hrun.
      destruct (delete_page lib svc page false w2) as [[o t2] w3] eqn:Hrest.
      simplify_eq.
      destruct (IH _ _ _ _ Hrest) as (-> & Hl & Hg' & Hd & He).
      { intros qr Hqr. apply Hget. rewrite get_events_app.
        apply elem_of_app. by right. }
      split; [done|].
      rewrite list_events_app, get_events_app, delete_events_app,
        error_logs_app, Hl, He, fmap_app, Hg', length_app, Hd.
      destruct (delete_failed _) eqn:Hf; cbn;
        repeat split; try done;
        destruct (decide _) as [Hdec|Hdec]; rewrite ?Hf in Hdec; done.
Qed.
End BulkDelete.

(** *** The loop *)

Section BulkLoop.
Context {W : Type} (lib : Library W) (svc : YataiService W).
Variables (bento_name labels : option string) (require_confirm : bool).

Lemma delete_loop_sound fuel :
  ∀ offset w out tr w',
    delete_loop lib fuel svc bento_name labels require_confirm offset w
    = Some (out, tr, w') →
    loop_run lib svc bento_name labels require_confirm offset w out tr w'.
Proof.
  induction fuel as [|fuel IH]; intros offset w out tr w' Hrun; [done|].
  cbn [delete_loop] in Hrun.
  destruct (0 <=? offset) eqn:Hoff; cbn [negb] in Hrun.
  2: { simplify_eq. apply loop_guard. lia. }
  apply Z.leb_le in Hoff.
  destruct (list_ lib svc bento_name (Some offset) (Some delete_list_limit)
            labels None None w) as [[[page|e] t1] w1] eqn:Hlist.
  2: { simplify_eq. by apply loop_list_raises. }
  case_bool_decide as Hlen.
  { simplify_eq. destruct page; [|done]. by apply loop_break. }
  assert (page ≠ []) as Hne by (by intros ->).
  destruct (delete_page lib svc page require_confirm w1)
    as [[[u|e] t2] w2] eqn:Hpage.
  2: { simplify_eq. by eapply loop_page_raises. }
  destruct (delete_loop _ fuel _ _ _ _ _ w2) as [[[o t3] w3]|] eqn:Hloop;
    [|done].
  simplify_eq. eapply loop_again; eauto.
Qed.

Lemma delete_loop_mono fuel :
  ∀ fuel' offset w r,
    delete_loop lib fuel svc bento_name labels require_confirm offset w
    = Some r →
    (fuel ≤ fuel')%nat →
    delete_loop lib fuel' svc bento_name labels require_confirm offset w
    = Some r.
Proof.
  induction fuel as [|fuel IH]; intros fuel' offset w r Hrun Hle; [done|].
  destruct fuel' as [|fuel']; [lia|].
  cbn [delete_loop] in *.
  destruct (negb (0 <=? offset)); [done|].
  destruct (list_ lib svc bento_name (Some offset) (Some delete_list_limit)
            labels None None w) as [[[page|e] t1] w1]; [|done].
  case_bool_decide; [done|].
  destruct (delete_page lib svc page require_confirm w1)
    as [[[u|e] t2] w2]; [|done].
  destruct (delete_loop _ fuel _ _ _ _ _ w2) as [r3|] eqn:Hloop; [|done].
  rewrite (IH fuel' _ _ _ Hloop); [done|lia].
Qed.
End BulkLoop.

(** One bundle deletion, and so a page of them, sends no listing. *)
Lemma delete_bundle_no_list {W : Type} (lib : Library W)
    (svc : YataiService W) tag rc w :
  list_events (_delete_bento_bundle lib svc tag rc w).1.2 = [].
Proof. unfold _delete_bento_bundle. unfold_client. explore; done. Qed.

Lemma delete_page_no_list {W : Type} (lib : Library W)
    (svc : YataiService W) rc (page : list Bento) :
  ∀ w, list_events (delete_page lib svc page rc w).1.2 = [].
Proof.
  induction page as [|b page IH]; intros w; [done|].
  cbn [delete_page]. unfold bind.
  pose proof (delete_bundle_no_list lib svc (bento_tag_of b) rc w) as Hb.
  destruct (_delete_bento_bundle lib svc (bento_tag_of b) rc w)
    as [[[u|e] t1] w1]; cbn [fst snd] in Hb; [|done].
  specialize (IH w1).
  destruct (delete_page lib svc page rc w1) as [[o t2] w2].
  cbn [fst snd] in *. by rewrite list_events_app, Hb, IH.
Qed.

Section BulkLoopFacts.
Context {W : Type} (lib : Library W) (svc : YataiService W).
Variables (bento_name labels : option string).

(** The listings of a bulk deletion ask for the pages at [offset],
    [offset + 50], [offset + 100], ..., 50 bundles each, with one and
    the same filter; a loop that ends without raising has seen non-empty
    pages and then an empty one. *)
Lemma loop_run_pages rc sel offset w out tr w' :
  loop_run lib svc bento_name labels rc offset w out tr w' →
  selectors_of lib labels = Return sel →
  0 ≤ offset →
  (list_events tr).*1
  = (λ i : nat, page_request bento_name sel (offset + 50 * Z.of_nat i))
      <$> seq 0 (length (list_events tr))
  ∧ (out = Return tt →
     ∃ pages,
       Forall (λ p : list Bento, p ≠ []) pages
       ∧ (λ qr, list_bentos qr.2) <$> list_events tr = pages ++ [[]]).
Proof.
  intros Hrun Hsel.
  induction Hrun
    as [offset w Hneg
       |offset w e t1 w1 _ Hlist
       |offset w t1 w1 _ Hlist
       |offset w page t1 w1 e t2 w2 _ Hlist Hne Hpage
       |offset w page t1 w1 u t2 w2 out t3 w3 _ Hlist Hne Hpage _ IH];
    intros Hoff.
  - lia.
  - destruct (list_run_Raise _ _ _ _ _ _ _ _ _ _ Hlist Hsel)
      as (r & _ & -> & _).
    cbn. split; [by rewrite Z.add_0_r|done].
  - destruct (list_run_Return _ _ _ _ _ _ _ _ _ _ Hlist Hsel)
      as (r & _ & -> & Hr & _).
    cbn. split; [by rewrite Z.add_0_r|].
    intros _. exists []. split; [done|]. cbn. by rewrite Hr.
  - destruct (list_run_Return _ _ _ _ _ _ _ _ _ _ Hlist Hsel)
      as (r & _ & -> & Hr & _).
    pose proof (delete_page_no_list lib svc rc page w1) as Hno.
    rewrite Hpage in Hno. cbn [fst snd] in Hno.
    rewrite list_events_app, Hno. cbn.
    split; [by rewrite Z.add_0_r|done].
  - destruct (list_run_Return _ _ _ _ _ _ _ _ _ _ Hlist Hsel)
      as (r & _ & -> & Hr & _).
    pose proof (delete_page_no_list lib svc rc page w1) as Hno.
    rewrite Hpage in Hno. cbn [fst snd] in Hno.
    rewrite !list_events_app, Hno. cbn [app].
    destruct IH as [IHreq IHpages]; [unfold delete_list_limit; lia|].
    split.
    + cbn. rewrite Z.add_0_r. f_equal.
      rewrite IHreq at 1. rewrite <- fmap_S_seq, <- list_fmap_compose.
      apply list_fmap_ext. intros _ i _. cbn. f_equal.
      unfold delete_list_limit. lia.
    + intros ->. destruct (IHpages eq_refl) as (pages & Hall & Heq).
      exists (page :: pages). split; [by constructor|].
      cbn. by rewrite Heq, Hr.
Qed.

End BulkLoopFacts.

(** ** Bulk deletion, bundle by bundle *)


Section BulkBundles.
Context {W : Type} (lib : Library W) (svc : YataiService W).





End BulkBundles.

(** *** A Get that is refused *)

Section RefusedGet.
Context {W : Type} (lib : Library W) (svc : YataiService W).





End RefusedGet.

(** *** The loop, bundle by bundle *)

Section BulkWorked.
Context {W : Type} (lib : Library W) (svc : YataiService W).



End BulkWorked.

(** ** The selectors of [delete] *)

(** C4 (as the code has it).  [delete] raises its usage error, before
    anything is logged or sent, exactly when [bento_tag], [bento_name] and
    [bento_version] are all given.  Every other combination is accepted
    and resolved by precedence: a [bento_tag] makes the call the deletion
    of that one reference, whatever else is given; without a tag,
    [prune] makes the call the deletion of everything, the name, version
    and labels given being ignored. *)
Theorem delete_usage_error_needs_all_three {W : Type}
    (lib : Library W) (svc : YataiService W)
    (bento_tag labels bento_name bento_version : option string)
    (prune require_confirm : bool) (fuel : nat) (w : W) :
  (delete lib svc bento_tag labels bento_name bento_version prune
     require_confirm fuel w
   = Some (Raise (BentoMLException "Too much arguments"), [], w)
   ↔ bento_tag ≠ None ∧ bento_name ≠ None ∧ bento_version ≠ None)
  ∧ (∀ tag,
       bento_tag = Some tag →
       bento_name = None ∨ bento_version = None →
       delete lib svc bento_tag labels bento_name bento_version prune
         require_confirm fuel w
       = Some ((log INFO ("Deleting saved Bento bundle " +:+ tag) ;;;
                _delete_bento_bundle lib svc tag require_confirm) w))
  ∧ (bento_tag = None →
     prune = true →
     delete lib svc bento_tag labels bento_name bento_version prune
       require_confirm fuel w
     = delete lib svc None None None None true require_confirm fuel w).
Proof.
  split; [|split].
  - split.
    + intros Hrun.
      destruct bento_tag as [tag|], bento_name as [name|],
        bento_version as [version|]; try done; exfalso;
        unfold delete in Hrun; cbn in Hrun;
        try (unfold bind, log in Hrun;
             destruct (_delete_bento_bundle lib svc _ _ w) as [[o t] w'];
             by simplify_eq);
        by destruct (delete_loop _ _ _ _ _ _ _ _) as [[[o t] w']|].
    + intros (Ht & Hn & Hv).
      destruct bento_tag, bento_name, bento_version; done.
  - intros tag -> [-> | ->]; [|destruct bento_name]; reflexivity.
  - intros -> ->. destruct bento_name; reflexivity.
Qed.

(** C4, refuted as stated: a tag and a name, two selectors, are given;
    no usage error is raised, the name is ignored and the tagged
    reference is deleted. *)
Lemma delete_accepts_tag_with_name :
  let sc := Oracle.delete_script [] Oracle.ok Oracle.ok in
  delete (Oracle.library sc) (Oracle.service sc)
    (Some "demo:1.0.0") None (Some "other") None false false 1 tt
  = Some (Return tt,
          [Ev_log INFO "Deleting saved Bento bundle demo:1.0.0";
           Ev_GetBento (mkGetBentoRequest "demo" "1.0.0")
             (mkGetBentoResponse Oracle.ok
                (mkBento "demo" "1.0.0" Oracle.no_uri
                   (mkMetadata "demo" "1.0.0" ∅)));
           Ev_DangerouslyDeleteBento (mkDeleteBentoRequest "demo" "1.0.0")
             (mkDeleteBentoResponse Oracle.ok);
           Ev_log INFO "Deleted demo:1.0.0"],
          tt).
Proof. reflexivity. Qed.

(** ** Bulk deletions in the scripted environment *)



(** ** Bulk deletion against the registry *)

Lemma delete_loop_unfold {W : Type} (lib : Library W) (svc : YataiService W)
    fuel bento_name labels require_confirm offset w :
  delete_loop lib (S fuel) svc bento_name labels require_confirm offset w
  = if negb (0 <=? offset) then Some (Return tt, [], w)
    else
      match list_ lib svc bento_name (Some offset) (Some delete_list_limit)
              labels None None w with
      | (Raise e, t1, w1) => Some (Raise e, t1, w1)
      | (Return bento_list, t1, w1) =>
          if bool_decide (length bento_list = 0%nat) then
            Some (Return tt, t1, w1)
          else
            match delete_page lib svc bento_list require_confirm w1 with
            | (Raise e, t2, w2) => Some (Raise e, t1 ++ t2, w2)
            | (Return _, t2, w2) =>
                match delete_loop lib fuel svc bento_name labels
                        require_confirm (offset + delete_list_limit) w2 with
                | Some (o, t3, w3) => Some (o, t1 ++ t2 ++ t3, w3)
                | None => None
                end
            end
      end.
Proof. reflexivity. Qed.

Module RegistryFacts.
Import Registry.

Lemma filter_ext_in {A} (P Q : A → Prop)
    `{∀ x, Decision (P x)} `{∀ x, Decision (Q x)} (l : list A) :
  (∀ x, x ∈ l → P x ↔ Q x) → filter P l = filter Q l.
Proof.
  induction l as [|x l IH]; intros Hext; [done|].
  rewrite !filter_cons.
  destruct (decide (P x)) as [HP|HP], (decide (Q x)) as [HQ|HQ].
  - f_equal. apply IH. intros y Hy. apply Hext. by right.
  - exfalso. apply HQ, Hext; [by left|done].
  - exfalso. apply HP, Hext; [by left|done].
  - apply IH. intros y Hy. apply Hext. by right.
Qed.

Lemma filter_all {A} (P : A → Prop) `{∀ x, Decision (P x)} (l : list A) :
  (∀ x, x ∈ l → P x) → filter P l = l.
Proof.
  induction l as [|x l IH]; intros Hall; [done|].
  rewrite filter_cons_True by (apply Hall; by left).
  f_equal. apply IH. intros y Hy. apply Hall. by right.
Qed.

Lemma filter_none {A} (P : A → Prop) `{∀ x, Decision (P x)} (l : list A) :
  (∀ x, x ∈ l → ¬ P x) → filter P l = [].
Proof.
  induction l as [|x l IH]; intros Hall; [done|].
  rewrite filter_cons_False by (apply Hall; by left).
  apply IH. intros y Hy. apply Hall. by right.
Qed.

Lemma NoDup_fmap_filter {A B} (f : A → B) (P : A → Prop)
    `{∀ x, Decision (P x)} (l : list A) :
  NoDup (f <$> l) → NoDup (f <$> filter P l).
Proof.
  induction l as [|x l IH]; [done|].
  rewrite fmap_cons, NoDup_cons. intros [Hx Hl].
  rewrite filter_cons. destruct (decide (P x)); [|by apply IH].
  rewrite fmap_cons. apply NoDup_cons. split; [|by apply IH].
  intros (y & Hy & Hin%list_elem_of_filter)%list_elem_of_fmap.
  apply Hx. apply list_elem_of_fmap. exists y. by destruct Hin.
Qed.

Lemma same_ref_spec name version b :
  same_ref name version b = true ↔ ref_of b = (name, version).
Proof.
  unfold same_ref, ref_of. rewrite andb_true_iff, !bool_decide_eq_true.
  split; [by intros [-> ->]|by intros [= -> ->]].
Qed.

Section Service.
Variable selects : string → Bento → bool.

Lemma matches_page_request name offset b :
  matches selects (page_request name None offset) b = name_matches name b.
Proof. unfold matches, name_matches. cbn. by rewrite andb_true_r. Qed.

Lemma page_beyond req bs :
  (length bs ≤ Z.to_nat (list_offset req))%nat → page selects req bs = [].
Proof.
  intros Hlen. unfold page. rewrite drop_ge; [by rewrite take_nil|].
  pose proof (length_filter (λ b, matches selects req b) bs). lia.
Qed.

Lemma page_first name bs :
  (length (filter (λ b, name_matches name b) bs) ≤ 50)%nat →
  page selects (page_request name None 0) bs
  = filter (λ b, name_matches name b) bs.
Proof.
  intros Hlen. unfold page. cbn.
  rewrite (filter_ext_in _ (λ b, name_matches name b)).
  - by rewrite take_ge.
  - intros b _. by rewrite matches_page_request.
Qed.

(** Deleting one bundle never adds one. *)
Lemma delete_bundle_length tag rc st :
  (length (bundles (_delete_bento_bundle (library selects)
                      (service selects) tag rc st).2)
   ≤ length (bundles st))%nat.
Proof.
  unfold _delete_bento_bundle. unfold_client. cbn.
  unfold reg_get, reg_delete, remove_ref.
  explore; cbn; try lia; apply length_filter.
Qed.

Lemma delete_page_length rc (l : list Bento) :
  ∀ st,
    (length (bundles (delete_page (library selects) (service selects)
                        l rc st).2)
     ≤ length (bundles st))%nat.
Proof.
  induction l as [|b l IH]; intros st; [done|].
  cbn [delete_page]. unfold bind.
  pose proof (delete_bundle_length (bento_tag_of b) rc st) as Hb.
  destruct (_delete_bento_bundle _ _ (bento_tag_of b) rc st)
    as [[[u|e] t1] st1]; cbn [fst snd] in Hb; [|done].
  specialize (IH st1).
  destruct (delete_page _ _ l rc st1) as [[o t2] st2].
  cbn [fst snd] in *. lia.
Qed.

(** The loop ends: the offset grows by a page at every turn, and the
    registry does not. *)
Lemma loop_terminates name labels rc n :
  ∀ offset st,
    0 ≤ offset →
    (length (bundles st) ≤ Z.to_nat offset + 50 * n)%nat →
    is_Some (delete_loop (library selects) (S n) (service selects)
               name labels rc offset st).
Proof.
  induction n as [|n IH]; intros offset st Hoff Hlen;
    rewrite delete_loop_unfold;
    (destruct (0 <=? offset) eqn:Hleb; [|lia]); cbn [negb];
    rewrite list_run;
    (destruct (selectors_of (library selects) labels) as [sel|e];
     [|by eexists]);
    cbn [ListBento service reg_list list_status list_bentos Oracle.ok
           status_code];
    (rewrite bool_decide_eq_false_2 by (by intros ?));
    (case_bool_decide as Hpage; [by eexists|]).
  - exfalso. apply Hpage. rewrite page_beyond; [done|]. cbn. lia.
  - pose proof (delete_page_length rc
                  (page selects (page_request name sel offset)
                     (bundles st)) st) as Hdel.
    destruct (delete_page _ _ _ rc st) as [[[u|e] t2] st2];
      cbn [fst snd] in Hdel; [|by eexists].
    destruct (IH (offset + delete_list_limit) st2) as [r Hr].
    + unfold delete_list_limit. lia.
    + unfold delete_list_limit. rewrite Z2Nat.inj_add by lia.
      change (Z.to_nat 50) with 50%nat. lia.
    + rewrite Hr. destruct r as [[o t3] st3]. by eexists.
Qed.

(** References that are present, well-formed and distinct are deleted
    one after the other when no failure is injected. *)
Lemma delete_page_removes (l : list Bento) :
  ∀ bs,
    Forall wf_ref l →
    NoDup (ref_of <$> l) →
    (∀ b, b ∈ l → b ∈ bs) →
    ∃ tr,
      delete_page (library selects) (service selects) l false
        (mkState bs [])
      = (Return tt, tr,
         mkState (filter (λ b, ref_of b ∉ ref_of <$> l) bs) []).
Proof.
  induction l as [|b l IH]; intros bs Hwf Hnd Hin.
  - exists []. cbn. unfold ret. rewrite filter_all; [done|].
    intros x _. cbn. apply not_elem_of_nil.
  - apply Forall_cons in Hwf as [Hb Hwf].
    rewrite fmap_cons in Hnd. apply NoDup_cons in Hnd as [Hbl Hnd].
    cbn [delete_page].
    pose proof (delete_bundle_run (library selects) (service selects)
                  b (mkState bs []) Hb) as Hrun.
    cbn [GetBento service] in Hrun. unfold reg_get in Hrun.
    cbn [get_bento_name get_bento_version ref_request bundles] in Hrun.
    destruct (List.find (same_ref (bento_name b) (bento_version b)) bs)
      as [b'|] eqn:Hfind.
    2: { exfalso.
         pose proof (List.find_none _ _ Hfind b) as Hnone.
         rewrite <- list_elem_of_In in Hnone.
         specialize (Hnone (Hin b ltac:(by left))).
         assert (same_ref (bento_name b) (bento_version b) b = true)
           as Htrue by (by apply same_ref_spec).
         congruence. }
    apply List.find_some in Hfind as [_ Hsame].
    apply same_ref_spec in Hsame. injection Hsame as Hn Hv.
    cbn in Hrun. rewrite Hn, Hv in Hrun.
    rewrite (bind_Return _ _ _ _ _ _ Hrun).
    destruct (IH (remove_ref (bento_name b) (bento_version b) bs))
      as [tr Htr]; [done|done| |].
    { intros b2 Hb2. unfold remove_ref.
      apply list_elem_of_filter. split; [|by apply Hin; right].
      destruct (same_ref _ _ b2) eqn:Hs; [|done].
      exfalso. apply Hbl. apply same_ref_spec in Hs.
      apply list_elem_of_fmap. by exists b2. }
    unfold remove_ref in Htr |- *. rewrite Htr. eexists. f_equal. f_equal.
    rewrite list_filter_filter.
    apply filter_ext_in. intros x _. cbn.
    rewrite not_elem_of_cons.
    destruct (same_ref (bento_name b) (bento_version b) x) eqn:Hs.
    + apply same_ref_spec in Hs. split; [by intros [_ ?]|].
      intros [Hne _]. by destruct Hne.
    + split; [intros [? _]|by intros [? ?]].
      split; [|done]. intros Heq.
      assert (same_ref (bento_name b) (bento_version b) x = true)
        as Htrue by (by apply same_ref_spec).
      congruence.
Qed.

(** A filter that fits in one page is emptied by a bulk deletion when
    no failure is injected: what is left is what the filter does not
    match. *)
Lemma bulk_delete_small name fuel bs :
  Forall wf_ref bs →
  NoDup (ref_of <$> bs) →
  (length (filter (λ b, name_matches name b) bs) ≤ 50)%nat →
  (2 ≤ fuel)%nat →
  ∃ tr,
    delete_loop (library selects) fuel (service selects) name None false
      0 (mkState bs [])
    = Some (Return tt, tr,
            mkState (filter (λ b, ¬ name_matches name b) bs) []).
Proof.
  intros Hwf Hnd Hlen Hfuel.
  destruct fuel as [|[|fuel]]; [lia|lia|].
  rewrite delete_loop_unfold. change (negb (0 <=? 0)) with false. cbv iota.
  rewrite list_run. cbn [selectors_of].
  cbn [ListBento service reg_list list_status list_bentos Oracle.ok
         status_code bundles].
  rewrite bool_decide_eq_false_2 by (by intros ?).
  rewrite page_first by done.
  set (l := filter (λ b, name_matches name b) bs) in *.
  case_bool_decide as Hl.
  - eexists. f_equal. f_equal. f_equal.
    apply length_zero_iff_nil in Hl. symmetry. apply filter_all.
    intros x Hx Hm.
    assert (x ∈ l) as Hxl by (by apply list_elem_of_filter).
    rewrite Hl in Hxl. by apply elem_of_nil in Hxl.
  - destruct (delete_page_removes l bs) as [tr Htr].
    + apply Forall_forall. intros x Hx%list_elem_of_filter.
      rewrite Forall_forall in Hwf. apply Hwf, Hx.
    + by apply NoDup_fmap_filter.
    + intros x Hx%list_elem_of_filter. apply Hx.
    + rewrite Htr.
      assert (filter (λ b, ref_of b ∉ ref_of <$> l) bs
              = filter (λ b, ¬ name_matches name b) bs) as ->.
      { apply filter_ext_in. intros x Hx. split.
        - intros Hnot Hm. apply Hnot. apply list_elem_of_fmap.
          exists x. split; [done|]. by apply list_elem_of_filter.
        - intros Hm (y & Heq & Hy%list_elem_of_filter)%list_elem_of_fmap.
          apply Hm. destruct Hy as [Hy _].
          unfold name_matches, ref_of in *. destruct name as [n|]; [|done].
          injection Heq as Hn _.
          apply bool_decide_unpack in Hy. apply bool_decide_pack.
          congruence. }
      rewrite delete_loop_unfold.
      change (negb (0 <=? 0 + delete_list_limit)) with false. cbv iota.
      rewrite list_run. cbn [selectors_of].
      cbn [ListBento service reg_list list_status list_bentos Oracle.ok
             status_code bundles].
      rewrite bool_decide_eq_false_2 by (by intros ?).
      assert (page selects (page_request name None (0 + delete_list_limit))
                (filter (λ b, ¬ name_matches name b) bs) = []) as ->.
      { unfold page. rewrite filter_none; [by rewrite drop_nil, take_nil|].
        intros x [Hx _]%list_elem_of_filter.
        by rewrite matches_page_request. }
      rewrite bool_decide_eq_true_2 by done.
      eexists. reflexivity.
Qed.
End Service.

End RegistryFacts.

(** C1 (as the code has it).  [delete(prune=True)] against the registry
    ends, whatever the registry holds and whatever failures are injected:
    every amount of fuel above the number of bundles gives one and the
    same result.  Its listings ask for the pages at offsets 0, 50, 100,
    ..., 50 bundles each, with no filter; when it ends without raising,
    the pages it saw were non-empty up to a last, empty one.  When the
    registry holds at most 50 bundles, with well-formed and distinct
    references, no failure is injected and no confirmation is asked, it
    ends without raising and leaves the registry empty. *)
Theorem prune_ends_and_empties_one_page
    (selects : string → Bento → bool) (require_confirm : bool)
    (st : Registry.state) :
  ∃ out tr st',
    (∀ fuel,
       (length (Registry.bundles st) < fuel)%nat →
       Registry.prune selects require_confirm fuel st = Some (out, tr, st'))
    ∧ (list_events tr).*1
      = (λ i : nat, page_request None None (50 * Z.of_nat i))
          <$> seq 0 (length (list_events tr))
    ∧ (out = Return tt →
       ∃ pages,
         Forall (λ p : list Bento, p ≠ []) pages
         ∧ (λ qr, list_bentos qr.2) <$> list_events tr = pages ++ [[]])
    ∧ (require_confirm = false →
       Registry.faults st = [] →
       Forall wf_ref (Registry.bundles st) →
       NoDup (ref_of <$> Registry.bundles st) →
       (length (Registry.bundles st) ≤ 50)%nat →
       out = Return tt ∧ Registry.bundles st' = []).
Proof.
  set (n := length (Registry.bundles st)).
  destruct (RegistryFacts.loop_terminates selects None None require_confirm
              n 0 st) as [[[out tr0] st'] Hrun]; [lia|lia|].
  exists out, (Ev_log INFO "Deleting all BentoML saved bundles." :: tr0), st'.
  assert (∀ fuel, (n < fuel)%nat →
            delete_loop (Registry.library selects) fuel
              (Registry.service selects) None None require_confirm 0 st
            = Some (out, tr0, st')) as Hfuel.
  { intros fuel Hlt. apply (delete_loop_mono _ _ _ _ _ (S n)); [done|lia]. }
  split; [|split; [|split]].
  - intros fuel Hlt. unfold Registry.prune, delete. cbn.
    by rewrite (Hfuel fuel Hlt).
  - apply delete_loop_sound in Hrun.
    by destruct (loop_run_pages _ _ _ _ _ None _ _ _ _ _ Hrun eq_refl).
  - apply delete_loop_sound in Hrun.
    by destruct (loop_run_pages _ _ _ _ _ None _ _ _ _ _ Hrun eq_refl).
  - intros -> Hfaults Hwf Hnd Hlen. destruct st as [bs fs].
    cbn in Hfaults, Hwf, Hnd, Hlen. subst fs.
    destruct (RegistryFacts.bulk_delete_small selects None (S (S n)) bs)
      as [tr Htr]; [done|done| |lia|].
    { pose proof (length_filter
                    (λ b, name_matches None b) bs). lia. }
    rewrite (Hfuel (S (S n))) in Htr by lia.
    injection Htr as -> _ ->. split; [done|]. cbn.
    apply RegistryFacts.filter_none. intros x _ Hx. by apply Hx.
Qed.

(** C1, refuted as stated: one bundle, and a failure injected into its
    deletion; the run ends, and the bundle is still registered. *)
Lemma prune_leaves_bundle_whose_deletion_failed :
  left_over
    (Registry.prune (λ _ _, true) false 5
       (Registry.mkState (Registry.numbered 1) [true]))
  = Some (Return tt, Registry.numbered 1).
Proof. reflexivity. Qed.

(** Runs of [delete(prune=True)] on registries of 0, 50 and 51 bundles
    with no failure injected.  The third listing of the last run asks for
    offset 50 of the one bundle that the first page left: the page is
    empty and the bundle stays. *)
Example prune_0 :
  left_over (Registry.prune (λ _ _, true) false 1 (Registry.mkState [] []))
  = Some (Return tt, []).
Proof. reflexivity. Qed.

Example prune_50 :
  left_over
    (Registry.prune (λ _ _, true) false 51
       (Registry.mkState (Registry.numbered 50) []))
  = Some (Return tt, []).
Proof. vm_compute. reflexivity. Qed.

Example prune_51 :
  left_over
    (Registry.prune (λ _ _, true) false 52
       (Registry.mkState (Registry.numbered 51) []))
  = Some (Return tt,
          [mkBento "b" "50" Oracle.no_uri (mkMetadata "b" "50" ∅)]).
Proof. vm_compute. reflexivity. Qed.

(** ** [delete] by name and version *)



(** The registry holds [demo:1.0.0], [demo:2.0.0] and [other:1.0.0];
    the deletion of [demo], version [1.0.0], removes both versions of
    [demo]. *)
Example delete_demo_1_0_0_removes_2_0_0 :
  let bento n v := mkBento n v Oracle.no_uri (mkMetadata n v ∅) in
  left_over
    (delete (Registry.library (λ _ _, true)) (Registry.service (λ _ _, true))
       None None (Some "demo") (Some "1.0.0") false false 3
       (Registry.mkState
          [bento "demo" "1.0.0"; bento "demo" "2.0.0"; bento "other" "1.0.0"]
          []))
  = Some (Return tt, [bento "other" "1.0.0"]).
Proof. reflexivity. Qed.


(** The same call on a name with 51 versions and no failure injected:
    the second listing asks for offset 50 of the one version that the
    first page left, so [b:50] stays. *)
Example delete_by_name_51_versions :
  left_over
    (delete (Registry.library (λ _ _, true)) (Registry.service (λ _ _, true))
       None None (Some "b") (Some "0") false false 52
       (Registry.mkState (Registry.numbered 51) []))
  = Some (Return tt,
          [mkBento "b" "50" Oracle.no_uri (mkMetadata "b" "50" ∅)]).
Proof. vm_compute. reflexivity. Qed.

(** * Further properties of the repository client *)

(** ** [get] on malformed references *)

(** [get] sends its Get exactly when the reference holds exactly one
    colon.  With no colon it raises the name-or-version-missing error,
    with two or more it raises [ValueError]; in both cases nothing is
    sent and the world is untouched. *)
Theorem get_sends_iff_one_colon {W : Type} (svc : YataiService W)
    (bento : string) (w : W) :
  ((get svc bento w).1.2 = [] ↔ PyStr.count ":"%char bento ≠ 1%nat)
  ∧ (PyStr.count ":"%char bento = 0%nat →
     get svc bento w
     = (Raise (BentoMLException name_or_version_missing_msg), [], w))
  ∧ ((2 ≤ PyStr.count ":"%char bento)%nat →
     get svc bento w
     = (Raise (ValueError "too many values to unpack (expected 2)"), [], w)).
Proof.
  assert (PyStr.count ":"%char bento = 0%nat →
          get svc bento w
          = (Raise (BentoMLException name_or_version_missing_msg), [], w))
    as H0.
  { intros Hc. unfold get.
    apply PyStrFacts.contains_count in Hc. by rewrite Hc. }
  assert ((2 ≤ PyStr.count ":"%char bento)%nat →
          get svc bento w
          = (Raise (ValueError "too many values to unpack (expected 2)"),
             [], w)) as H2.
  { intros Hc. unfold get.
    destruct (PyStr.contains ":" bento) eqn:Hcont.
    - destruct (count_ge_2_split _ _ Hc) as (a & b & c & rest & Hs).
      cbn [negb]. unfold bind, lift. by rewrite Hs.
    - apply PyStrFacts.contains_count in Hcont. lia. }
  split; [|by split].
  split.
  - intros Htr Hc. unfold get in Htr.
    assert (PyStr.contains ":" bento = true) as Hcont.
    { destruct (PyStr.contains ":" bento) eqn:E; [done|].
      apply PyStrFacts.contains_count in E. lia. }
    rewrite Hcont in Htr. cbn [negb] in Htr.
    unfold bind, lift in Htr.
    rewrite (PyStrFacts.split_count_1 _ _ Hc) in Htr. cbn in Htr.
    unfold call_GetBento in Htr.
    destruct (GetBento svc _ w) as [resp w'].
    destruct (bool_decide _); cbn in Htr; done.
  - intros Hc.
    destruct (PyStr.count ":" bento) as [|[|n]] eqn:E.
    + by rewrite H0.
    + done.
    + rewrite H2; [done|lia].
Qed.

(** ** Deleting one bundle *)

(** With confirmation required, a deletion is sent only right after the
    user has answered the prompt with yes; when the user answers no, the
    call returns without sending a deletion. *)
Theorem delete_bundle_asks_first {W : Type} (lib : Library W)
    (svc : YataiService W) (bento_tag : string) (w : W) out tr w' :
  _delete_bento_bundle lib svc bento_tag true w = (out, tr, w') →
  (∀ q r,
     Ev_DangerouslyDeleteBento q r ∈ tr →
     ∃ pre post,
       tr = pre
            ++ Ev_confirm ("Permanently delete " +:+ bento_tag +:+ "?") true
            :: Ev_DangerouslyDeleteBento q r :: post)
  ∧ (∀ prompt,
       Ev_confirm prompt false ∈ tr →
       out = Return tt ∧ delete_events tr = []).
Proof.
  intros Hrun. unfold _delete_bento_bundle in Hrun. unfold_client. split.
  - intros q r Hin.
    explore; simpl in Hin; elems; simplify_eq/=;
      match goal with
      | H : negb ?b = false |- _ => destruct b; [|done]
      end;
      eexists [_], _; reflexivity.
  - intros prompt Hin.
    explore; simpl in Hin; elems; simplify_eq/=; done.
Qed.

(** A deletion by tag whose Delete is refused does not raise: the call
    returns, and its last act is the error line for the refusal. *)
Theorem delete_by_tag_logs_refusal {W : Type} (lib : Library W)
    (svc : YataiService W) (bento_tag : string)
    (labels bento_name bento_version : option string)
    (prune require_confirm : bool) (fuel : nat) (w : W) out tr w' :
  bento_name = None ∨ bento_version = None →
  delete lib svc (Some bento_tag) labels bento_name bento_version prune
    require_confirm fuel w = Some (out, tr, w') →
  ∀ q r,
    Ev_DangerouslyDeleteBento q r ∈ tr →
    status_code (del_status r) ≠ OK →
    out = Return tt ∧ last tr = Some (Ev_log LOG_ERROR (failure_line (q, r))).
Proof.
  intros Hnv Hrun q r Hin Hst.
  assert (delete lib svc (Some bento_tag) labels bento_name bento_version
            prune require_confirm fuel w
          = Some ((log INFO ("Deleting saved Bento bundle " +:+ bento_tag) ;;;
                   _delete_bento_bundle lib svc bento_tag require_confirm) w))
    as Hdel.
  { destruct Hnv as [-> | ->]; [|destruct bento_name]; reflexivity. }
  rewrite Hdel in Hrun. clear Hdel. injection Hrun as Hrun.
  unfold _delete_bento_bundle in Hrun. unfold_client.
  explore; simpl in Hin; elems; simplify_eq/=; decide_bools; done.
Qed.

(** ** More on [upload_from_dir] *)

Section UploadMore.
Context {W : Type} (lib : Library W) (svc : YataiService W).

(** An Add that is refused ends the upload: the error carries the code
    and the message of the answer, and nothing was removed, copied,
    transferred or reported as status. *)
Theorem upload_from_dir_stops_at_refused_add path labels w out tr w' :
  upload_from_dir lib svc path labels w = (out, tr, w') →
  ∀ areq aresp,
    Ev_AddBento areq aresp ∈ tr →
    status_code (add_status aresp) ≠ OK →
    out = Raise (BentoMLException (error_adding_msg (add_status aresp)))
    ∧ (∃ md0 greq gresp,
         tr = [Ev_load_bento_service_metadata path (Return md0);
               Ev_GetBento greq gresp;
               Ev_AddBento areq aresp])
    ∧ status_updates tr = []
    ∧ forallb (λ e, negb (is_backend_write e)) tr = true.
Proof.
  intros Hrun areq aresp Hin Hst. unfold_client.
  explore; simpl in Hin; elems; simplify_eq/=; decide_bools; try done;
    (split; [done|]); (split; [by eexists _, _, _|done]).
Qed.

(** Every status update of an upload carries the metadata read from the
    bundle directory with the labels of the call merged in: a label of
    the call wins over a label of the bundle with the same key, all other
    labels of the bundle are kept. *)
Theorem upload_from_dir_reports_merged_labels path labels w out tr w' :
  upload_from_dir lib svc path labels w = (out, tr, w') →
  ∀ req,
    Ev_UpdateBento req ∈ tr →
    ∃ md0,
      Ev_load_bento_service_metadata path (Return md0) ∈ tr
      ∧ upd_bento_name req = md_name md0
      ∧ upd_bento_version req = md_version md0
      ∧ md_name (upd_service_metadata req) = md_name md0
      ∧ md_version (upd_service_metadata req) = md_version md0
      ∧ ∀ k,
          md_labels (upd_service_metadata req) !! k
          = match labels ≫= (.!! k) with
            | Some v => Some v
            | None => md_labels md0 !! k
            end.
Proof.
  intros Hrun req Hin. unfold_client.
  explore; simpl in Hin; elems; simplify_eq/=; decide_bools;
    eexists; (split; [find_elem|]); repeat (split; [done|]);
    intros k; cbn;
    try (rewrite lookup_union; by destruct (_ !! k), (_ !! k));
    try done;
    subst; by rewrite lookup_empty.
Qed.

(** Labels that the validation refuses end the upload before anything
    is sent to the service or written to a backend. *)
Theorem upload_from_dir_refused_labels path l e w out tr w' :
  upload_from_dir lib svc path (Some l) w = (out, tr, w') →
  l ≠ ∅ →
  _validate_labels lib l = Raise e →
  is_Return out = false
  ∧ forallb (λ ev, negb (is_rpc ev) && negb (is_backend_write ev)) tr = true.
Proof.
  intros Hrun Hl Hval. unfold_client.
  rewrite bool_decide_eq_true_2 in Hrun by done. rewrite Hval in Hrun.
  explore; done.
Qed.

(** A push whose Get at the local service is refused ends there: the
    bundle is not read and nothing is sent to the remote service. *)
Theorem push_stops_at_refused_get bento with_labels w q r :
  head (push lib svc bento with_labels w).1.2 = Some (Ev_GetBento q r) →
  status_code (get_status r) ≠ OK →
  push lib svc bento with_labels w
  = (Raise (BentoMLException
              (not_found_msg (get_bento_name q) (get_bento_version q)
                 (get_status r))),
     [Ev_GetBento q r],
     (GetBento (get_yatai_client lib) q w).2).
Proof.
  intros Hhead Hst. unfold push in *. unfold bind at 1 in Hhead.
  unfold bind at 1. unfold get in *.
  destruct (negb (PyStr.contains ":" bento)); [done|].
  unfold bind at 1 in Hhead. unfold bind at 1.
  destruct (lift (unpack2 (PyStr.split ":" bento)) w)
    as [[[nv|e] t0] w0] eqn:Hnv;
    unfold lift in Hnv; simplify_eq/=; try done.
  unfold bind at 1 in Hhead. unfold bind at 1.
  unfold call_GetBento in *.
  destruct (GetBento (get_yatai_client lib) _ w0) as [resp' w1] eqn:Hget.
  destruct (bool_decide (status_code (get_status resp') ≠ OK)) eqn:Hs.
  - unfold raise in *. cbn in Hhead. simplify_eq/=. by rewrite Hget.
  - unfold ret in *. cbn in Hhead.
    match type of Hhead with
    | context [upload_from_dir lib svc ?p ?l w1] =>
        destruct (upload_from_dir lib svc p l w1) as [[o t] w2]
    end.
    cbn in Hhead. simplify_eq/=. by decide_bools.
Qed.
End UploadMore.

(** ** More on [parse_key_value_pairs] *)

Module StripFacts.
Import PyStr.

Lemma lstrip_head s :
  lstrip s = "" ∨ ∃ c s', lstrip s = String c s' ∧ isspace c = false.
Proof.
  induction s as [|c s IH]; [by left|]. cbn [lstrip].
  destruct (isspace c) eqn:Hc; [done|]. right. by exists c, s.
Qed.

Lemma rstrip_head c s :
  isspace c = false → ∃ s', rstrip (String c s) = String c s'.
Proof.
  intros Hc. cbn [rstrip]. rewrite Hc. destruct (rstrip s); eauto.
Qed.

Lemma rstrip_idemp s : rstrip (rstrip s) = rstrip s.
Proof.
  induction s as [|c s IH]; [done|]. cbn [rstrip].
  destruct (rstrip s) as [|d r] eqn:Hr.
  - destruct (isspace c) eqn:Hc; [done|]. cbn [rstrip]. by rewrite Hc.
  - cbn [rstrip] in IH |- *. rewrite IH. done.
Qed.

Lemma strip_idemp s : strip (strip s) = strip s.
Proof.
  unfold strip. destruct (lstrip_head s) as [->|(c & s' & -> & Hc)];
    [done|].
  destruct (rstrip_head c s' Hc) as [r Hr]. rewrite Hr.
  cbn [lstrip]. rewrite Hc, <- Hr. apply rstrip_idemp.
Qed.

End StripFacts.

Module TrimFacts.
Import PyStr.

Lemma last_char_rstrip s c :
  last_char (rstrip s) = Some c → isspace c = false.
Proof.
  induction s as [|d s IH]; [done|]. cbn [rstrip].
  destruct (rstrip s) as [|e r] eqn:Hr.
  - destruct (isspace d) eqn:Hd; [done|]. cbn. by intros [= <-].
  - intros Hlast. apply IH. exact Hlast.
Qed.

Lemma trimmed_strip s : trimmed (strip s) = true.
Proof.
  unfold trimmed, strip. apply andb_true_iff. split.
  - destruct (StripFacts.lstrip_head s) as [->|(c & s' & -> & Hc)]; [done|].
    destruct (StripFacts.rstrip_head c s' Hc) as [r ->]. cbn. by rewrite Hc.
  - destruct (last_char (rstrip (lstrip s))) as [c|] eqn:Hlast; [|done].
    cbn. by rewrite (last_char_rstrip _ _ Hlast).
Qed.

End TrimFacts.

Section ParseMore.
Context {W : Type}.

Lemma parse_tokens_invariant (tokens : list string) :
  ∀ (m0 m : gmap string string) (w w' : W) tr,
    parse_tokens tokens m0 w = (Return m, tr, w') →
    (size m + length tr = size m0 + length tokens)%nat
    ∧ Forall (λ e, ∃ msg, e = Ev_log WARNING msg) tr
    ∧ ((∀ k v, m0 !! k = Some v → PyStr.strip k = k ∧ PyStr.strip v = v) →
       ∀ k v, m !! k = Some v → PyStr.strip k = k ∧ PyStr.strip v = v).
Proof.
  induction tokens as [|t rest IH]; intros m0 m w w' tr Hrun.
  - cbn in Hrun. unfold ret in Hrun. simplify_eq. cbn. split; [lia|done].
  - cbn [parse_tokens] in Hrun.
    apply bind_run in Hrun
      as [(kv & t1 & w1 & t2 & Hkv & Hrun & ->)|(e & _ & ?)]; [|done].
    unfold lift in Hkv. simplify_eq.
    apply bind_run in Hrun
      as [(u & t3 & w3 & t4 & Hwarn & Hrun & ->)|(e & Hwarn & ?)];
      [|by destruct (decide _)].
    destruct (IH _ _ _ _ _ Hrun) as (Hsize & Hall & Hstrip).
    destruct (decide (is_Some (m0 !! PyStr.strip kv.1))) as [[v0 Hin]|Hnew];
      unfold log, ret in Hwarn; simplify_eq; cbn [app length].
    + rewrite map_size_insert_Some in Hsize by eauto.
      split; [lia|]. split; [constructor; eauto|].
      intros Hm0. apply Hstrip. intros k v.
      destruct (decide (k = PyStr.strip kv.1)) as [->|Hne].
      * rewrite lookup_insert_eq. intros [= <-].
        by rewrite !StripFacts.strip_idemp.
      * rewrite lookup_insert_ne by done. apply Hm0.
    + apply eq_None_not_Some in Hnew.
      rewrite map_size_insert_None in Hsize by done.
      split; [lia|]. split; [done|].
      intros Hm0. apply Hstrip. intros k v.
      destruct (decide (k = PyStr.strip kv.1)) as [->|Hne].
      * rewrite lookup_insert_eq. intros [= <-].
        by rewrite !StripFacts.strip_idemp.
      * rewrite lookup_insert_ne by done. apply Hm0.
Qed.

(** The keys and the values of a parsed map carry no white space at
    either end: neither their first nor their last character is one
    that [str.strip] removes. *)
Theorem parse_key_value_pairs_entries_stripped
    (key_value_pairs_str : option string) (w w' : W) m tr k v :
  parse_key_value_pairs key_value_pairs_str w = (Return m, tr, w') →
  m !! k = Some v →
  trimmed k = true ∧ trimmed v = true.
Proof.
  intros Hrun Hk. unfold parse_key_value_pairs in Hrun.
  destruct key_value_pairs_str as [[|c s]|]; unfold ret in Hrun;
    simplify_eq; try by rewrite lookup_empty in Hk.
  destruct (parse_tokens_invariant _ _ _ _ _ _ Hrun) as (_ & _ & Hstrip).
  destruct (Hstrip ltac:(by intros ?? ?%lookup_empty_Some) k v Hk)
    as [<- <-].
  split; apply TrimFacts.trimmed_strip.
Qed.

(** A successful parse of a non-empty argument warns once for each
    token that repeats a key, and for nothing else: the entries of the
    map and the warnings together are as many as the tokens. *)
Theorem parse_key_value_pairs_counts_duplicates
    (s : string) (w w' : W) m tr :
  s ≠ "" →
  parse_key_value_pairs (Some s) w = (Return m, tr, w') →
  (size m + length tr = length (PyStr.split ","%char s))%nat
  ∧ Forall (λ e, ∃ msg, e = Ev_log WARNING msg) tr.
Proof.
  intros Hs Hrun. destruct s as [|c s]; [done|].
  unfold parse_key_value_pairs in Hrun.
  destruct (parse_tokens_invariant _ _ _ _ _ _ Hrun) as (Hsize & Hall & _).
  rewrite map_size_empty in Hsize. done.
Qed.
End ParseMore.

(** * Further properties of the command line *)

(** ** [containerize] of the repository client *)

(** [containerize] sends its request exactly when the reference holds
    exactly one colon; otherwise it raises without sending anything. *)
Theorem containerize_sends_iff_one_colon {W : Type}
    (ContainerizeBento :
       ContainerizeBentoRequest → W → ContainerizeBentoResponse * W)
    bento tag build_args push (w : W) :
  ((containerize ContainerizeBento bento tag build_args push w).1.2 = []
   ↔ PyStr.count ":"%char bento ≠ 1%nat)
  ∧ (PyStr.count ":"%char bento ≠ 1%nat →
     is_Return (containerize ContainerizeBento bento tag build_args push w).1.1
     = false
     ∧ (containerize ContainerizeBento bento tag build_args push w).2 = w).
Proof.
  unfold containerize.
  destruct (PyStr.count ":"%char bento) as [|[|n]] eqn:Hc.
  - apply PyStrFacts.contains_count in Hc. rewrite Hc. cbn. done.
  - assert (PyStr.contains ":" bento = true) as ->.
    { destruct (PyStr.contains ":" bento) eqn:E; [done|].
      apply PyStrFacts.contains_count in E. lia. }
    rewrite (PyStrFacts.split_count_1 _ _ Hc). cbn.
    destruct (ContainerizeBento _ w) as [r w'].
    destruct (bool_decide _); cbn; split; done.
  - assert (PyStr.contains ":" bento = true) as ->.
    { destruct (PyStr.contains ":" bento) eqn:E; [done|].
      apply PyStrFacts.contains_count in E. lia. }
    destruct (count_ge_2_split ":"%char bento) as (a & b & c & rest & ->);
      [lia|]. cbn. done.
Qed.

(** The tag [name:version] that the command builds from the metadata of
    a bundle reaches the service as that name and that version, with the
    image tag, the build arguments and the push flag of the call, when
    neither part holds a colon; the answer's tag is returned for status
    OK, and any other status raises. *)
Theorem containerize_round_trips_reference {W : Type}
    (ContainerizeBento :
       ContainerizeBentoRequest → W → ContainerizeBentoResponse * W)
    name version tag build_args push (w : W) :
  PyStr.count ":"%char name = 0%nat →
  PyStr.count ":"%char version = 0%nat →
  let request :=
    mkContainerizeBentoRequest name version tag build_args push in
  let answer := ContainerizeBento request w in
  containerize ContainerizeBento (name +:+ ":" +:+ version) tag build_args
    push w
  = (if bool_decide (status_code (cont_status answer.1) = OK)
     then Return (cont_result_tag answer.1)
     else Raise (BentoMLException
                   (failed_to_containerize_msg (name +:+ ":" +:+ version)
                      (cont_status answer.1))),
     [request], answer.2).
Proof.
  intros Hn Hv request answer. unfold containerize.
  change (name +:+ ":" +:+ version) with (name +:+ String ":"%char version).
  rewrite PyStrFacts.contains_tag, (PyStrFacts.split_tag _ _ _ Hn Hv). cbn.
  subst answer request. destruct (ContainerizeBento _ w) as [r w']. cbn.
  destruct (decide (status_code (cont_status r) = OK)) as [Hok|Hok].
  - rewrite bool_decide_eq_false_2, bool_decide_eq_true_2; [done|done|].
    by intros ?.
  - by rewrite bool_decide_eq_true_2, bool_decide_eq_false_2.
Qed.

(** ** [add_options] *)

(** The options are stacked like decorators: the first of the list is
    applied last, around the others; adding two lists of options is
    adding the second, then the first. *)
Theorem add_options_stacks {A : Type} (l1 l2 : list (A → A)) (func : A) :
  add_options (l1 ++ l2) func = add_options l1 (add_options l2 func)
  ∧ add_options l1 func = foldr (λ option func, option func) func l1.
Proof.
  unfold add_options. split.
  - by rewrite reverse_app, foldl_app.
  - induction l1 as [|o l IH]; [done|].
    rewrite reverse_cons, foldl_app. cbn. by rewrite IH.
Qed.

(** ** [escape_shell_params] *)

Lemma alnum_not_backslash c :
  PyMore.is_ascii_alnum c = true → Ascii.eqb c "\"%char = false.
Proof.
  destruct c as [[] [] [] [] [] [] [] []]; vm_compute; congruence.
Qed.

Lemma escaped_escape v : escaped (escape_non_alnum v) = true.
Proof.
  induction v as [|c v IH]; [done|]. cbn [escape_non_alnum].
  destruct (PyMore.is_ascii_alnum c) eqn:Hc.
  - cbn [escaped]. by rewrite (alnum_not_backslash c Hc), Hc, IH.
  - cbn [escaped]. by rewrite Ascii.eqb_refl, Hc, IH.
Qed.

Lemma unescape_escape v : unescape (escape_non_alnum v) = v.
Proof.
  induction v as [|c v IH]; [done|]. cbn [escape_non_alnum].
  destruct (PyMore.is_ascii_alnum c) eqn:Hc.
  - cbn [unescape]. rewrite (alnum_not_backslash c Hc). by rewrite IH.
  - cbn [unescape]. rewrite Ascii.eqb_refl. by rewrite IH.
Qed.

Lemma before_app_l sep s1 s2 :
  PyStr.count sep s1 = 0%nat →
  PyStr.before sep (s1 +:+ String sep s2) = s1
  ∧ PyStr.after sep (s1 +:+ String sep s2) = s2.
Proof.
  intros H. by rewrite PyStrFacts.before_app, PyStrFacts.after_app.
Qed.

Lemma before_no_sep sep s : PyStr.count sep (PyStr.before sep s) = 0%nat.
Proof.
  induction s as [|c s IH]; [done|]. cbn.
  destruct (Ascii.eqb c sep) eqn:E; [done|]. cbn. by rewrite E.
Qed.

(** [escape_shell_params] accepts exactly the parameters that hold one
    [=].  It leaves the key as it is and puts a backslash before every
    character of the value that is no ASCII letter or digit, and
    nowhere else: in the value of the result every such character is
    escaped, and without the escaping backslashes it is the value of
    the parameter. *)
Theorem escape_shell_params_round_trip (param : string) :
  (is_Return (escape_shell_params param) = true
   ↔ PyStr.count "="%char param = 1%nat)
  ∧ ∀ r,
      escape_shell_params param = Return r →
      PyStr.before "="%char r = PyStr.before "="%char param
      ∧ escaped (PyStr.after "="%char r) = true
      ∧ unescape (PyStr.after "="%char r) = PyStr.after "="%char param.
Proof.
  unfold escape_shell_params.
  destruct (decide (PyStr.count "="%char param = 1%nat)) as [Hc|Hc].
  - rewrite (PyStrFacts.split_count_1 _ _ Hc). cbn. split; [done|].
    intros r [= <-].
    change (PyStr.before "=" param +:+ "="
              +:+ escape_non_alnum (PyStr.after "=" param))
      with (PyStr.before "=" param
              +:+ String "="%char (escape_non_alnum (PyStr.after "=" param))).
    destruct (before_app_l "="%char (PyStr.before "=" param)
                (escape_non_alnum (PyStr.after "=" param))) as [-> ->].
    { apply before_no_sep. }
    by rewrite escaped_escape, unescape_escape.
  - destruct (unpack2_wrong_length (PyStr.split "="%char param))
      as [msg ->].
    { rewrite PyStrFacts.split_length. lia. }
    cbn. split; [split; [done|by intros ?]|done].
Qed.

(** ** The build arguments of the command [containerize] *)

Lemma split1_pair key value :
  PyStr.count "="%char key = 0%nat →
  PyMore.split1 "="%char (key +:+ "=" +:+ value) = [key; value].
Proof.
  intros Hk. unfold PyMore.split1.
  change (key +:+ "=" +:+ value) with (key +:+ String "="%char value).
  rewrite PyStrFacts.contains_tag.
  by rewrite PyStrFacts.before_app, PyStrFacts.after_app.
Qed.

Lemma docker_build_args_loop_pairs (pairs : list (string * string)) :
  Forall (λ kv, PyStr.count "="%char kv.1 = 0%nat) pairs →
  ∀ m,
    docker_build_args_loop ((λ kv, kv.1 +:+ "=" +:+ kv.2) <$> pairs) m
    = Return (foldr (λ kv m, <[kv.1 := kv.2]> m) m (reverse pairs)).
Proof.
  induction 1 as [|[k v] pairs Hk _ IH]; intros m; [done|].
  cbn [fmap list_fmap docker_build_args_loop fst snd].
  rewrite (split1_pair k v Hk). cbn [unpack2].
  rewrite IH, reverse_cons, foldr_app. done.
Qed.

(** A build argument is cut at its first [=] only.  Arguments written
    as [key=value], the key without [=], come back as that key and that
    value, whatever the value holds, further [=] included, with nothing
    stripped; of two arguments with one key the later wins. *)
Theorem docker_build_args_round_trip (pairs : list (string * string)) :
  Forall (λ kv, PyStr.count "="%char kv.1 = 0%nat) pairs →
  docker_build_args ((λ kv, kv.1 +:+ "=" +:+ kv.2) <$> pairs)
  = Return (list_to_map (reverse pairs)).
Proof.
  intros Hall. unfold docker_build_args.
  by rewrite docker_build_args_loop_pairs.
Qed.

Lemma docker_build_args_loop_Return (build_arg : list string) :
  ∀ m,
    is_Return (docker_build_args_loop build_arg m) = true
    ↔ Forall (λ arg, PyStr.contains "="%char arg = true) build_arg.
Proof.
  induction build_arg as [|arg rest IH]; intros m; [done|].
  cbn [docker_build_args_loop]. unfold PyMore.split1.
  rewrite Forall_cons.
  destruct (PyStr.contains "=" arg) eqn:Hc; cbn.
  - rewrite IH. split; [by intros ?; split|by intros [_ ?]].
  - split; [done|]. by intros [? _].
Qed.

Lemma docker_build_args_loop_raises (build_arg : list string) :
  ∀ m0,
    is_Return (docker_build_args_loop build_arg m0) = false →
    ∃ msg, docker_build_args_loop build_arg m0 = Raise (ValueError msg).
Proof.
  induction build_arg as [|arg rest IH]; intros m0; [done|].
  cbn [docker_build_args_loop]. unfold PyMore.split1.
  destruct (PyStr.contains "=" arg); cbn; [apply IH|eauto].
Qed.

(** The build arguments are accepted exactly when each of them holds an
    [=]; one that holds none makes the command raise [ValueError]. *)
Theorem docker_build_args_needs_eq (build_arg : list string) :
  (is_Return (docker_build_args build_arg) = true
   ↔ Forall (λ arg, PyStr.contains "="%char arg = true) build_arg)
  ∧ (is_Return (docker_build_args build_arg) = false →
     ∃ msg, docker_build_args build_arg = Raise (ValueError msg)).
Proof.
  split; [apply docker_build_args_loop_Return|].
  apply docker_build_args_loop_raises.
Qed.

(** ** [create_unique_name] *)

Module PyMoreFacts.
Import PyMore.

Lemma length_app (a b : string) :
  String.length (a +:+ b) = (String.length a + String.length b)%nat.
Proof.
  induction a as [|c a IH]; [done|].
  rewrite PyStrFacts.app_cons. cbn. by rewrite IH.
Qed.

Lemma length_take n s :
  String.length (take n s) = (n `min` String.length s)%nat.
Proof.
  revert s. induction n as [|n IH]; intros [|c s]; cbn; try done.
  by rewrite IH.
Qed.

Lemma take_app n a b :
  n = String.length a → take n (a +:+ b) = a.
Proof.
  intros ->. induction a as [|c a IH]; [by destruct b|].
  rewrite PyStrFacts.app_cons. cbn. by rewrite IH.
Qed.

Lemma length_drop_last s :
  String.length (drop_last s) = pred (String.length s).
Proof.
  induction s as [|c s IH]; [done|]. cbn [drop_last].
  destruct s as [|d s]; [done|]. cbn [String.length] in *.
  by rewrite IH.
Qed.

Lemma split_app_sep sep a b :
  PyStr.count sep a = 0%nat →
  PyStr.split sep (a +:+ String sep b) = a :: PyStr.split sep b.
Proof.
  induction a as [|c a IH]; intros Ha.
  - change (PyStr.split sep (String sep b) = "" :: PyStr.split sep b).
    cbn. by rewrite Ascii.eqb_refl.
  - rewrite PyStrFacts.app_cons. cbn in Ha |- *.
    destruct (Ascii.eqb c sep); [done|]. by rewrite IH.
Qed.

Lemma split_join sep (l : list string) :
  l ≠ [] →
  Forall (λ s, PyStr.count sep s = 0%nat) l →
  PyStr.split sep (join (String sep EmptyString) l) = l.
Proof.
  intros Hne Hall. induction Hall as [|s l Hs Hall IH]; [done|].
  destruct l as [|s' l].
  - cbn [join]. by apply PyStrFacts.split_count_0.
  - assert (join (String sep "") (s :: s' :: l)
            = s +:+ String sep (join (String sep "") (s' :: l))) as ->
      by reflexivity.
    rewrite split_app_sep by done. by rewrite IH.
Qed.

End PyMoreFacts.

(** For a UUID text of 36 characters, [create_unique_name] returns the
    first 40 characters of [name-uuid]: its test for a trailing dash
    never holds, nothing is cut off the end, and a name of 39 characters
    comes back with the dash as its last character. *)
Theorem create_unique_name_keeps_dash (uuid4 name : string) :
  String.length uuid4 = 36%nat →
  create_unique_name uuid4 name = PyMore.take 40 (name +:+ "-" +:+ uuid4)
  ∧ String.length (create_unique_name uuid4 name)
    = (40 `min` (String.length name + 37))%nat
  ∧ (String.length name = 39%nat →
     create_unique_name uuid4 name = name +:+ "-").
Proof.
  intros Hu.
  assert (String.length (PyMore.take 40 (name +:+ "-" +:+ uuid4))
          = (40 `min` (String.length name + 37))%nat) as Hlen.
  { rewrite PyMoreFacts.length_take, !PyMoreFacts.length_app, Hu.
    change (String.length "-") with 1%nat. lia. }
  assert (create_unique_name uuid4 name
          = PyMore.take 40 (name +:+ "-" +:+ uuid4)) as Heq.
  { unfold create_unique_name. case_bool_decide as Hd; [|done].
    exfalso. apply (f_equal String.length) in Hd.
    rewrite PyMoreFacts.length_drop_last, Hlen in Hd.
    change (String.length "-") with 1%nat in Hd. lia. }
  rewrite Heq. split; [done|]. split; [done|].
  intros Hn. rewrite <- PyStrFacts.app_assoc.
  apply PyMoreFacts.take_app. rewrite PyMoreFacts.length_app, Hn.
  reflexivity.
Qed.

(** ** [_format_labels_for_print] *)

Lemma dict_getitem_entry (labels : list (string * string)) k v :
  NoDup labels.*1 → (k, v) ∈ labels → dict_getitem labels k = v.
Proof.
  unfold dict_getitem.
  induction labels as [|[k' v'] labels IH]; intros Hnd Hin.
  - by apply elem_of_nil in Hin.
  - apply NoDup_cons in Hnd as [Hk' Hnd]. cbn [List.find fst].
    case_bool_decide as Hk.
    + subst k'. apply elem_of_cons in Hin as [[= ->]|Hin]; [done|].
      exfalso. apply Hk'. apply list_elem_of_fmap. by exists (k, v).
    + apply elem_of_cons in Hin as [[= -> ->]|Hin]; [done|]. by apply IH.
Qed.

(** Labels print as nothing when there are none, and otherwise as one
    line [key:value] per label, in the order in which the dictionary is
    iterated, when no key and no value holds a line break: cutting the
    text at its line breaks gives the labels back, in that order. *)
Theorem format_labels_one_line_per_label
    (labels : list (string * string)) :
  (_format_labels_for_print labels = None ↔ labels = [])
  ∧ (labels ≠ [] →
     NoDup labels.*1 →
     Forall (λ kv, PyStr.count "010"%char kv.1 = 0%nat
                   ∧ PyStr.count "010"%char kv.2 = 0%nat) labels →
     ∃ text,
       _format_labels_for_print labels = Some text
       ∧ PyStr.split "010"%char text
         = (λ kv : string * string, kv.1 +:+ ":" +:+ kv.2) <$> labels
       ∧ length (PyStr.split "010"%char text) = length labels).
Proof.
  unfold _format_labels_for_print. split.
  - by destruct labels.
  - intros Hne Hnd Hnl.
    eexists. split; [by destruct labels|].
    assert ((λ label_key : string,
               label_key +:+ ":" +:+ dict_getitem labels label_key)
              <$> labels.*1
            = (λ kv : string * string, kv.1 +:+ ":" +:+ kv.2) <$> labels)
      as ->.
    { rewrite <- list_fmap_compose. apply list_fmap_ext.
      intros i [k v] Hi%list_elem_of_lookup_2. cbn.
      by rewrite (dict_getitem_entry labels k v Hnd Hi). }
    rewrite PyMoreFacts.split_join.
    + split; [done|]. by rewrite length_fmap.
    + by intros Hnil%fmap_nil_inv.
    + apply Forall_fmap. eapply Forall_impl; [exact Hnl|].
      intros [k v] [Hk Hv]. cbn in *.
      rewrite !PyStrFacts.count_app, Hk, Hv. done.
Qed.

(** ** [echo_docker_api_result] *)

Section EchoFacts.
Variable format_size : Z → string.

Lemma echo_loop_app_None (pre : list docker_line) :
  ∀ layers outs rest,
    echo_loop format_size pre layers = (outs, None) →
    ∃ layers',
      echo_loop format_size (pre ++ rest) layers
      = (outs ++ (echo_loop format_size rest layers').1,
         (echo_loop format_size rest layers').2).
Proof.
  induction pre as [|line pre IH]; intros layers outs rest Hrun.
  - cbn in Hrun. simplify_eq. exists layers. cbn.
    by destruct (echo_loop format_size rest layers).
  - cbn [echo_loop app] in Hrun |- *.
    destruct (echo_progress format_size line layers)
      as [e|[pushed layers1]]; [done|].
    destruct (echo_error_detail line); [done|].
    destruct (echo_loop format_size pre layers1) as [more e] eqn:Hpre.
    simplify_eq.
    destruct (IH _ _ rest Hpre) as [layers' ->]. exists layers'.
    by rewrite <- !app_assoc.
Qed.

(** The generator ends where it raises: whatever follows the line that
    made it raise is neither read nor echoed. *)
Theorem echo_docker_api_result_ends_at_exception
    (lines rest : list docker_line) outs e :
  echo_docker_api_result format_size lines = (outs, Some e) →
  echo_docker_api_result format_size (lines ++ rest) = (outs, Some e).
Proof.
  unfold echo_docker_api_result. generalize (∅ : gmap string (Z * Z)).
  revert outs. induction lines as [|line lines IH]; intros outs layers Hrun;
    [done|].
  cbn [echo_loop app] in Hrun |- *.
  destruct (echo_progress format_size line layers)
    as [e'|[pushed layers1]]; [done|].
  destruct (echo_error_detail line); [done|].
  destruct (echo_loop format_size lines layers1) as [more e'] eqn:Hpre.
  simplify_eq. by rewrite (IH _ _ Hpre).
Qed.

(** A line with an error detail that carries a message, reached without
    an exception and itself no progress line, makes the generator raise
    the error with that message, after the stream text of that line and
    all that was echoed before. *)
Theorem echo_docker_api_result_raises_error_detail
    (pre post : list docker_line) (line : docker_line) (message : string) :
  (echo_docker_api_result format_size pre).2 = None →
  pushing line = false →
  dl_errorDetail line = Some (mkErrorDetail (Some message)) →
  echo_docker_api_result format_size (pre ++ line :: post)
  = ((echo_docker_api_result format_size pre).1 ++ echo_stream line,
     Some (EchoBentoMLException message)).
Proof.
  unfold echo_docker_api_result. intros Hpre Hpush Herr.
  destruct (echo_loop format_size pre ∅) as [outs e] eqn:Hrun.
  cbn in Hpre. subst e.
  destruct (echo_loop_app_None pre _ _ (line :: post) Hrun) as [layers' ->].
  cbn [echo_loop]. unfold echo_progress, echo_error_detail.
  unfold pushing in Hpush. rewrite Hpush, Herr. cbn.
  by rewrite app_nil_r.
Qed.


End EchoFacts.

(** A progress line whose progress detail lacks its numbers makes the
    generator end with a [KeyError], after the stream text of that line;
    an error detail on the same line is not reported. *)
Theorem echo_docker_api_result_incomplete_progress
    (format_size : Z → string)
    (pre post : list docker_line) (line : docker_line) total :
  (echo_docker_api_result format_size pre).2 = None →
  pushing line = true →
  dl_progressDetail line = Some (mkProgressDetail None total) →
  echo_docker_api_result format_size (pre ++ line :: post)
  = ((echo_docker_api_result format_size pre).1 ++ echo_stream line,
     Some (EchoKeyError "current")).
Proof.
  unfold echo_docker_api_result. intros Hpre Hpush Hprog.
  destruct (echo_loop format_size pre ∅) as [outs e] eqn:Hrun.
  cbn in Hpre. subst e.
  destruct (echo_loop_app_None format_size pre _ _ (line :: post) Hrun)
    as [layers' ->].
  cbn [echo_loop]. unfold echo_progress.
  unfold pushing in Hpush. rewrite Hpush, Hprog. done.
Qed.

(** ** Deleting with confirmation *)

Lemma delete_events_none (tr : list event) :
  (∀ q r, Ev_DangerouslyDeleteBento q r ∉ tr) → delete_events tr = [].
Proof.
  induction tr as [|e tr IH]; intros Hno; [done|].
  unfold delete_events in *.
  destruct e; cbn;
    try (apply IH; intros q' r' Hin; apply (Hno q' r'); by right).
  exfalso. eapply Hno. by left.
Qed.

Lemma delete_bundle_declined {W : Type} (lib : Library W)
    (svc : YataiService W) (bento_tag : string) (w : W) out tr w' :
  _delete_bento_bundle lib svc bento_tag true w = (out, tr, w') →
  (∀ prompt b, Ev_confirm prompt b ∈ tr → b = false) →
  delete_events tr = [].
Proof.
  intros Hrun Hno. apply delete_events_none. intros q r Hin.
  unfold _delete_bento_bundle in Hrun. unfold_client.
  explore; simpl in Hin; elems; simplify_eq/=;
    match goal with
    | H : negb ?b = false |- _ =>
        destruct b; [|done];
        specialize (Hno _ true ltac:(find_elem)); done
    end.
Qed.

Lemma delete_page_declined {W : Type} (lib : Library W)
    (svc : YataiService W) (page : list Bento) :
  ∀ (w : W) out tr w',
    delete_page lib svc page true w = (out, tr, w') →
    (∀ prompt b, Ev_confirm prompt b ∈ tr → b = false) →
    delete_events tr = [].
Proof.
  induction page as [|b page IH]; intros w out tr w' Hrun Hno.
  - cbn in Hrun. unfold ret in Hrun. by simplify_eq.
  - cbn [delete_page] in Hrun.
    apply bind_run in Hrun
      as [(u & t1 & w1 & t2 & Hb & Hrest & ->)|(e & Hb & ->)].
    + rewrite delete_events_app.
      rewrite (delete_bundle_declined _ _ _ _ _ _ _ Hb),
        (IH _ _ _ _ Hrest); [done| |];
        intros prompt c Hin; apply (Hno prompt); apply elem_of_app; eauto.
    + by apply (delete_bundle_declined _ _ _ _ _ _ _ Hb).
Qed.

Lemma list_no_delete {W : Type} (lib : Library W) (svc : YataiService W)
    name offset limit labels order_by ascending (w : W) :
  delete_events
    (list_ lib svc name offset limit labels order_by ascending w).1.2 = [].
Proof. unfold_client. explore; done. Qed.

Lemma delete_loop_declined {W : Type} (lib : Library W)
    (svc : YataiService W) (bento_name labels : option string)
    (fuel : nat) (offset : Z) (w : W) out tr w' :
  delete_loop lib fuel svc bento_name labels true offset w
  = Some (out, tr, w') →
  (∀ prompt b, Ev_confirm prompt b ∈ tr → b = false) →
  delete_events tr = [].
Proof.
  intros Hrun%delete_loop_sound.
  induction Hrun
    as [offset w Hneg
       |offset w e t1 w1 _ Hlist
       |offset w t1 w1 _ Hlist
       |offset w page t1 w1 e t2 w2 _ Hlist Hne Hpage
       |offset w page t1 w1 u t2 w2 out t3 w3 _ Hlist Hne Hpage _ IH];
    intros Hno; try done.
  - pose proof (list_no_delete lib svc bento_name (Some offset)
                  (Some delete_list_limit) labels None None w) as Hl.
    by rewrite Hlist in Hl.
  - pose proof (list_no_delete lib svc bento_name (Some offset)
                  (Some delete_list_limit) labels None None w) as Hl.
    by rewrite Hlist in Hl.
  - pose proof (list_no_delete lib svc bento_name (Some offset)
                  (Some delete_list_limit) labels None None w) as Hl.
    rewrite Hlist in Hl. cbn [fst snd] in Hl.
    rewrite delete_events_app, Hl.
    apply (delete_page_declined _ _ _ _ _ _ _ Hpage).
    intros prompt c Hin. apply (Hno prompt). apply elem_of_app. eauto.
  - pose proof (list_no_delete lib svc bento_name (Some offset)
                  (Some delete_list_limit) labels None None w) as Hl.
    rewrite Hlist in Hl. cbn [fst snd] in Hl.
    rewrite !delete_events_app, Hl.
    rewrite (delete_page_declined _ _ _ _ _ _ _ Hpage), IH; [done| |];
      intros prompt c Hin; apply (Hno prompt);
      apply elem_of_app; right; apply elem_of_app; eauto.
Qed.

(** A deletion with confirmation in which the user answers no prompt
    with yes sends no deletion at all, whatever selects the bundles: a
    tag, a name, labels, or prune. *)
Theorem delete_needs_consent {W : Type} (lib : Library W)
    (svc : YataiService W)
    (bento_tag labels bento_name bento_version : option string)
    (prune : bool) (fuel : nat) (w : W) out tr w' :
  delete lib svc bento_tag labels bento_name bento_version prune true fuel w
  = Some (out, tr, w') →
  (∀ prompt b, Ev_confirm prompt b ∈ tr → b = false) →
  delete_events tr = [].
Proof.
  unfold delete. intros Hrun Hno.
  assert (∀ tag out t w1,
            (log INFO ("Deleting saved Bento bundle " +:+ tag) ;;;
             _delete_bento_bundle lib svc tag true) w = (out, t, w1) →
            (∀ prompt b, Ev_confirm prompt b ∈ t → b = false) →
            delete_events t = []) as Hone.
  { intros tag o t w1 Hb Hno'.
    apply bind_run in Hb
      as [(u & t1 & w2 & t2 & Hlog & Hb & ->)|(e & Hlog & ->)];
      [|by unfold log in Hlog].
    unfold log in Hlog. simplify_eq.
    apply (delete_bundle_declined _ _ _ _ _ _ _ Hb).
    intros prompt b Hin. apply (Hno' prompt). by right. }
  destruct (bool_decide (bento_tag ≠ None) && bool_decide (bento_name ≠ None)
            && bool_decide (bento_version ≠ None)).
  { unfold raise in Hrun. by simplify_eq. }
  destruct (bool_decide (bento_tag ≠ None)).
  { injection Hrun as Hrun. by apply (Hone _ _ _ _ Hrun). }
  rewrite andb_false_r in Hrun.
  destruct (delete_loop _ _ _ _ _ _ _ _) as [[[o t] w1]|] eqn:Hloop;
    [|done].
  injection Hrun as <- <- <-.
  apply (delete_loop_declined _ _ _ _ _ _ _ _ _ _ Hloop).
  intros prompt b Hin. apply (Hno prompt). by right.
Qed.

(** ** The totals of a push *)

Lemma sum_layers_insert (layers : gmap string (Z * Z)) id ct :
  layers !! id = None →
  sum_layers (<[id := ct]> layers)
  = (ct.1 + (sum_layers layers).1, ct.2 + (sum_layers layers).2).
Proof.
  intros Hfresh. unfold sum_layers.
  rewrite map_fold_insert_L; [done| |done].
  intros j1 j2 [a1 b1] [a2 b2] [a3 b3] _ _ _. cbn.
  apply pair_equal_spec. lia.
Qed.

Lemma echo_loop_adds_up (format_size : Z → string)
    (ps : list (string * (Z * Z))) :
  ∀ layers : gmap string (Z * Z),
    NoDup ps.*1 →
    (∀ id, id ∈ ps.*1 → layers !! id = None) →
    echo_loop format_size (progress_of <$> ps) layers
    = ((λ k, pushed_text format_size
               ((sum_layers layers).1 + sum_list (take k ps).*2.*1)
               ((sum_layers layers).2 + sum_list (take k ps).*2.*2))
         <$> seq 1 (length ps),
       None).
Proof.
  induction ps as [|[id [c t]] ps IH]; intros layers Hnd Hfresh; [done|].
  apply NoDup_cons in Hnd as [Hid Hnd].
  cbn [fmap list_fmap echo_loop].
  unfold echo_progress, echo_error_detail, echo_stream.
  cbn [progress_of dl_status dl_progressDetail dl_id dl_errorDetail dl_stream
       pd_current pd_total fst snd].
  rewrite bool_decide_eq_true_2 by done.
  rewrite sum_layers_insert by (apply Hfresh; left).
  cbn [fst snd].
  change (list_fmap _ _ progress_of ps) with (progress_of <$> ps).
  rewrite IH; [|done|].
  - cbn [app length]. rewrite sum_layers_insert by (apply Hfresh; left).
    cbn [fst snd seq fmap list_fmap firstn take].
    f_equal. f_equal.
    + unfold pushed_text, sum_list. rewrite take_0. cbn.
      by rewrite !Z.add_0_r, (Z.add_comm c), (Z.add_comm t).
    + rewrite <- (seq_shift (length ps) 1). change (map S) with (fmap (M:=list) S).
      rewrite <- list_fmap_compose. apply list_fmap_ext.
      intros _ k _. cbn. unfold pushed_text, sum_list.
      by rewrite !Z.add_assoc, (Z.add_comm c), (Z.add_comm t).
  - intros id' Hin. rewrite lookup_insert_ne.
    + apply Hfresh. by right.
    + intros ->. done.
Qed.

(** When every layer of a push is reported once, the progress echoed
    adds up: the text of the k-th line gives the sum of the current
    sizes and the sum of the total sizes of the first k layers, and the
    generator ends without an exception. *)
Theorem echo_docker_api_result_adds_up (format_size : Z → string)
    (ps : list (string * (Z * Z))) :
  NoDup ps.*1 →
  echo_docker_api_result format_size (progress_of <$> ps)
  = ((λ k, pushed_text format_size (sum_list (take k ps).*2.*1)
             (sum_list (take k ps).*2.*2))
       <$> seq 1 (length ps),
     None).
Proof.
  intros Hnd. unfold echo_docker_api_result.
  rewrite echo_loop_adds_up; [|done|done].
  f_equal.
Qed.

(** ** The further properties at concrete runs *)

Section MoreWitnesses.
Import Oracle MoreRuns.

Lemma delete_bundle_asks_first_witness :
  ∃ out tr w',
    _delete_bento_bundle (library BulkRuns.refusing)
      (service BulkRuns.refusing) "a:1" true tt = (out, tr, w')
    ∧ ∃ pre post,
        tr = pre
             ++ Ev_confirm "Permanently delete a:1?" true
             :: Ev_DangerouslyDeleteBento
                  (mkDeleteBentoRequest "a" "1")
                  (mkDeleteBentoResponse internal)
             :: post.
Proof.
  eexists _, _, _. split; [vm_compute; reflexivity|].
  eapply (delete_bundle_asks_first (library BulkRuns.refusing)
            (service BulkRuns.refusing) "a:1" tt);
    [vm_compute; reflexivity|find_elem].
Defined.

Lemma delete_by_tag_logs_refusal_witness :
  ∃ out tr w',
    delete (library BulkRuns.refusing) (service BulkRuns.refusing)
      (Some "a:1") None None None false false 1 tt = Some (out, tr, w')
    ∧ out = Return tt
    ∧ last tr
      = Some (Ev_log LOG_ERROR
                (failure_line (mkDeleteBentoRequest "a" "1",
                               mkDeleteBentoResponse internal))).
Proof.
  eexists _, _, _. split; [vm_compute; reflexivity|].
  eapply (delete_by_tag_logs_refusal (library BulkRuns.refusing)
            (service BulkRuns.refusing) "a:1" None None None false false 1 tt);
    [by left|vm_compute; reflexivity|find_elem|discriminate].
Defined.

Lemma delete_needs_consent_witness :
  ∃ out tr w',
    delete (library declining) (service declining) None None (Some "a") None
      false true 2 tt = Some (out, tr, w')
    ∧ delete_events tr = [].
Proof.
  eexists _, _, _. split; [vm_compute; reflexivity|].
  eapply (delete_needs_consent (library declining) (service declining)
            None None (Some "a") None false 2 tt);
    [vm_compute; reflexivity|].
  intros prompt b Hin. elems; by simplify_eq.
Defined.

Lemma upload_from_dir_stops_at_refused_add_witness :
  ∃ out tr w',
    upload_from_dir (library refusing_add) (service refusing_add)
      "/tmp/demo" None tt = (out, tr, w')
    ∧ out = Raise (BentoMLException (error_adding_msg internal))
    ∧ status_updates tr = [].
Proof.
  eexists _, _, _. split; [vm_compute; reflexivity|].
  edestruct (upload_from_dir_stops_at_refused_add (library refusing_add)
               (service refusing_add) "/tmp/demo" None tt)
    as (Hout & _ & Hupd & _);
    [vm_compute; reflexivity
    |apply list_elem_of_further, list_elem_of_further, list_elem_of_here
    |discriminate
    |split; [exact Hout|exact Hupd]].
Defined.

Lemma upload_from_dir_reports_merged_labels_witness :
  ∃ out tr w',
    upload_from_dir (library UploadRuns.fresh_local)
      (service UploadRuns.fresh_local) "/tmp/demo"
      (Some {["team" := "ml"]}) tt = (out, tr, w')
    ∧ ∀ req,
        Ev_UpdateBento req ∈ tr →
        upd_bento_name req = "demo"
        ∧ md_labels (upd_service_metadata req) !! "team" = Some "ml".
Proof.
  eexists _, _, _. split; [vm_compute; reflexivity|].
  intros req Hin.
  edestruct (upload_from_dir_reports_merged_labels
               (library UploadRuns.fresh_local)
               (service UploadRuns.fresh_local) "/tmp/demo"
               (Some {["team" := "ml"]}) tt)
    as (md0 & Hmd & Hname & _ & _ & _ & Hlabels);
    [vm_compute; reflexivity|exact Hin|].
  elems; simplify_eq; split; [exact Hname|exact (Hlabels "team")].
Defined.

Lemma upload_from_dir_refused_labels_witness :
  ∃ out tr w',
    upload_from_dir (library refusing_labels) (service refusing_labels)
      "/tmp/demo" (Some {["team" := "ml"]}) tt = (out, tr, w')
    ∧ is_Return out = false
    ∧ forallb (λ ev, negb (is_rpc ev) && negb (is_backend_write ev)) tr
      = true.
Proof.
  eexists _, _, _. split; [vm_compute; reflexivity|].
  eapply (upload_from_dir_refused_labels (library refusing_labels)
            (service refusing_labels) "/tmp/demo" {["team" := "ml"]}
            (BentoMLException "invalid label") tt);
    [vm_compute; reflexivity|apply insert_non_empty|reflexivity].
Defined.

Lemma push_stops_at_refused_get_witness :
  push (library UploadRuns.fresh_local) (service UploadRuns.fresh_local)
    "demo:1.0.0" true tt
  = (Raise (BentoMLException (not_found_msg "demo" "1.0.0" not_found)),
     [Ev_GetBento UploadRuns.demo_get
        (mkGetBentoResponse not_found (demo_bento local_uri))],
     tt).
Proof.
  apply (push_stops_at_refused_get (library UploadRuns.fresh_local)
           (service UploadRuns.fresh_local) "demo:1.0.0" true tt
           UploadRuns.demo_get
           (mkGetBentoResponse not_found (demo_bento local_uri)));
    [vm_compute; reflexivity|discriminate].
Defined.

Lemma parse_key_value_pairs_entries_stripped_witness :
  ∃ m tr,
    parse_key_value_pairs (Some " team = ml , stage=dev ") tt
    = (Return m, tr, tt)
    ∧ m !! "team" = Some "ml"
    ∧ trimmed "team" = true ∧ trimmed "ml" = true.
Proof.
  eexists _, _. split; [vm_compute; reflexivity|].
  split; [vm_compute; reflexivity|].
  eapply (parse_key_value_pairs_entries_stripped
            (Some " team = ml , stage=dev ") tt tt);
    vm_compute; reflexivity.
Defined.

Lemma parse_key_value_pairs_counts_duplicates_witness :
  ∃ m tr,
    parse_key_value_pairs (Some "a=1,b=2,a=3") tt = (Return m, tr, tt)
    ∧ (size m + length tr = 3)%nat
    ∧ Forall (λ e, ∃ msg, e = Ev_log WARNING msg) tr.
Proof.
  eexists _, _. split; [vm_compute; reflexivity|].
  eapply (parse_key_value_pairs_counts_duplicates "a=1,b=2,a=3" tt tt);
    [discriminate|vm_compute; reflexivity].
Defined.

Lemma containerize_round_trips_reference_witness :
  containerize containerize_ok "demo:1.0.0" (Some "demo:latest") None false tt
  = (Return "demo:latest",
     [mkContainerizeBentoRequest "demo" "1.0.0" (Some "demo:latest") None false],
     tt).
Proof.
  apply (containerize_round_trips_reference containerize_ok "demo" "1.0.0"
           (Some "demo:latest") None false tt);
    reflexivity.
Defined.

Lemma docker_build_args_round_trip_witness :
  docker_build_args ["A=1=2"; "B=x"; "A=3"]
  = Return (list_to_map [("A", "3"); ("B", "x"); ("A", "1=2")]).
Proof.
  apply (docker_build_args_round_trip [("A", "1=2"); ("B", "x"); ("A", "3")]).
  repeat constructor.
Defined.

Lemma create_unique_name_keeps_dash_witness :
  create_unique_name "123e4567-e89b-12d3-a456-426614174000"
    "an-image-name-of-thirty-nine-characters"
  = "an-image-name-of-thirty-nine-characters-".
Proof.
  apply (create_unique_name_keeps_dash
           "123e4567-e89b-12d3-a456-426614174000"
           "an-image-name-of-thirty-nine-characters");
    reflexivity.
Defined.

Lemma echo_docker_api_result_raises_error_detail_witness :
  echo_docker_api_result bytes
    [stream_line "Step 1/2"; error_line "denied"; stream_line "never read"]
  = (["Step 1/2"], Some (EchoBentoMLException "denied")).
Proof.
  apply (echo_docker_api_result_raises_error_detail bytes
           [stream_line "Step 1/2"] [stream_line "never read"]
           (error_line "denied") "denied");
    reflexivity.
Defined.

Lemma echo_docker_api_result_incomplete_progress_witness :
  echo_docker_api_result bytes
    [stream_line "Step 1/2"; empty_progress_line "layer"]
  = (["Step 1/2"], Some (EchoKeyError "current")).
Proof.
  apply (echo_docker_api_result_incomplete_progress bytes
           [stream_line "Step 1/2"] [] (empty_progress_line "layer") None);
    reflexivity.
Defined.


Lemma echo_docker_api_result_adds_up_witness :
  echo_docker_api_result bytes
    [progress_of ("a", (1, 4)); progress_of ("b", (2, 2))]
  = (["Pushed 1 bytes / 4 bytes"; "Pushed 3 bytes / 6 bytes"], None).
Proof.
  apply (echo_docker_api_result_adds_up bytes
           [("a", (1, 4)); ("b", (2, 2))]).
  apply (bool_decide_unpack (NoDup [("a", (1, 4)); ("b", (2, 2))].*1)).
  vm_compute. exact I.
Defined.

Lemma get_sends_iff_one_colon_witness :
  get (service UploadRuns.registered) "demo" tt
  = (Raise (BentoMLException name_or_version_missing_msg), [], tt)
  ∧ get (service UploadRuns.registered) "demo:1.0.0:x" tt
    = (Raise (ValueError "too many values to unpack (expected 2)"), [], tt).
Proof.
  split.
  - destruct (get_sends_iff_one_colon (service UploadRuns.registered)
                "demo" tt) as (_ & Hnone & _).
    apply Hnone. reflexivity.
  - destruct (get_sends_iff_one_colon (service UploadRuns.registered)
                "demo:1.0.0:x" tt) as (_ & _ & Hmany).
    apply Hmany. vm_compute. lia.
Defined.

Lemma containerize_sends_iff_one_colon_witness :
  (containerize containerize_ok "demo" None None false tt).1.2 = []
  ∧ is_Return (containerize containerize_ok "demo" None None false tt).1.1
    = false.
Proof.
  destruct (containerize_sends_iff_one_colon containerize_ok "demo" None None
              false tt) as (Hsends & Hraises).
  split.
  - apply Hsends. discriminate.
  - apply Hraises. discriminate.
Defined.

Lemma escape_shell_params_round_trip_witness :
  escape_shell_params "name=a b" = Return "name=a\ b"
  ∧ PyStr.before "="%char "name=a\ b" = "name"
  ∧ escaped (PyStr.after "="%char "name=a\ b") = true
  ∧ unescape (PyStr.after "="%char "name=a\ b") = "a b".
Proof.
  split; [reflexivity|].
  destruct (escape_shell_params_round_trip "name=a b") as (_ & Hback).
  apply (Hback "name=a\ b"). reflexivity.
Defined.

Lemma docker_build_args_needs_eq_witness :
  ∃ msg, docker_build_args ["A=1"; "B"] = Raise (ValueError msg).
Proof.
  destruct (docker_build_args_needs_eq ["A=1"; "B"]) as (_ & Hraises).
  apply Hraises. reflexivity.
Defined.

Lemma format_labels_one_line_per_label_witness :
  _format_labels_for_print [("team", "ml"); ("stage", "dev")]
  = Some ("team:ml" +:+ String "010"%char "stage:dev")
  ∧ ∃ text,
      _format_labels_for_print [("team", "ml"); ("stage", "dev")]
      = Some text
      ∧ PyStr.split "010"%char text = ["team:ml"; "stage:dev"].
Proof.
  split; [reflexivity|].
  destruct (format_labels_one_line_per_label
              [("team", "ml"); ("stage", "dev")]) as (_ & Hlines).
  destruct Hlines as (text & Htext & Hsplit & _).
  - discriminate.
  - apply (bool_decide_unpack (NoDup [("team", "ml"); ("stage", "dev")].*1)).
    vm_compute. exact I.
  - repeat constructor.
  - exists text. split; [exact Htext|]. rewrite Hsplit. reflexivity.
Defined.

End MoreWitnesses.
